(** * Computer-Aided Skin Cancer Diagnosis: preprocessing, inference and
      explanation pipeline

    A shallow embedding of [app/utils.py], [app/model_loader.py] and
    [app/app.py].  Python objects become Rocq records, dictionaries become
    finite maps (or association lists where insertion order is observable),
    NumPy [float32]/[float64] values become [spec_float] with the IEEE
    operations of the standard library at precision 24/53, and a [try] /
    [except] block becomes a computation in the exception monad whose handler
    is written out.  OpenCV, Keras, tf-keras-vis, matplotlib and PIL are not
    part of the repository: their entry points are the fields of the record
    [Libs]. *)

From Stdlib Require Import ZArith QArith Qabs Qpower Lqa List String Ascii Bool Lia.
From Stdlib Require Import Floats.SpecFloat.
From Stdlib Require Import Sorting.Sorted Sorting.Permutation.
From Stdlib Require Strings.Byte.
From stdpp Require Import base option list gmap strings.

Local Open Scope Z_scope.
Local Open Scope string_scope.

(** ** Exceptions *)

(** A raised Python exception: its class name and [str(e)]. *)
Record exn := Exn { exn_type : string; exn_msg : string }.

(** The outcome of a block of Python code: an exception or a value. *)
Definition result (A : Type) : Type := exn + A.

Definition raise {A} (e : exn) : result A := inl e.
Definition ok {A} (a : A) : result A := inr a.

Definition rbind {A B} (c : result A) (k : A -> result B) : result B :=
  match c with
  | inl e => inl e
  | inr a => k a
  end.

Notation "'let*' x ':=' c 'in' k" := (rbind c (fun x => k))
  (at level 10, x pattern, c at level 100, k at level 200).

(** [try: c except Exception: return None] *)
Definition catch_none {A} (c : result A) : option A :=
  match c with
  | inl _ => None
  | inr a => Some a
  end.

(** [for x in xs: body] where the body may raise. *)
Fixpoint for_each {A S} (body : S -> A -> result S) (xs : list A) (s : S) : result S :=
  match xs with
  | [] => ok s
  | x :: xs' => let* s' := body s x in for_each body xs' s'
  end.

(** ** IEEE 754 numbers *)

Module Float.

(** NumPy [float32] and Python [float] (binary64). *)
Definition prec32 : Z := 24.
Definition emax32 : Z := 128.
Definition prec64 : Z := 53.
Definition emax64 : Z := 1024.

Definition is_nan (x : spec_float) : bool :=
  match x with S754_nan => true | _ => false end.

Definition is_finite (x : spec_float) : bool :=
  match x with
  | S754_zero _ | S754_finite _ _ _ => true
  | S754_infinity _ | S754_nan => false
  end.

(** Rounding of a value [m * 2^e] of either format into the other one. *)
Definition round_to (prec emax : Z) (x : spec_float) : spec_float :=
  match x with
  | S754_finite s m e => binary_round prec emax s m e
  | _ => x
  end.

Definition to_f32 : spec_float -> spec_float := round_to prec32 emax32.
(** [float(x)] of a [float32] scalar: exact. *)
Definition to_f64 : spec_float -> spec_float := round_to prec64 emax64.

Definition f64_of_Z (z : Z) : spec_float := binary_normalize prec64 emax64 z 0 false.
Definition f32_of_Z (z : Z) : spec_float := binary_normalize prec32 emax32 z 0 false.

(** The Python float written as the decimal literal [num / den]: the
    binary64 number nearest to that rational. *)
Definition literal (num den : Z) : spec_float :=
  SFdiv prec64 emax64 (f64_of_Z num) (f64_of_Z den).

Definition sub32 := SFsub prec32 emax32.
Definition mul32 := SFmul prec32 emax32.
Definition add32 := SFadd prec32 emax32.
Definition div32 := SFdiv prec32 emax32.
Definition mul64 := SFmul prec64 emax64.

(** [<=] and [<] of IEEE numbers; both are false when a NaN is compared. *)
Definition leb := SFleb.
Definition ltb := SFltb.

End Float.

(** ** NumPy arrays *)

(** An array of rank 3 indexed [a[row][col][channel]]. *)
Abbreviation ndarray3 A := (list (list (list A))) (only parsing).
(** An array of rank 2. *)
Abbreviation ndarray2 A := (list (list A)) (only parsing).

Abbreviation uint8 := Byte.byte (only parsing).
Definition uint8_to_Z (b : uint8) : Z := Z.of_N (Byte.to_N b).

(** [a.shape == (h, w, c)] *)
Definition has_shape {A} (a : ndarray3 A) (h w c : nat) : Prop :=
  length a = h /\
  Forall (fun row => length row = w /\ Forall (fun px => length px = c) row) a.

Definition map3 {A B} (f : A -> B) (a : ndarray3 A) : ndarray3 B :=
  map (map (map f)) a.

(** [a[:, :, i] = f(a[:, :, i])]; indexing a channel the array does not have
    raises IndexError. *)
Definition update_channel {A} (i : nat) (f : A -> A) (a : ndarray3 A) : result (ndarray3 A) :=
  if forallb (forallb (fun px => Nat.ltb i (length px))) a
  then ok (map (map (fun px => alter f i px)) a)
  else raise (Exn "IndexError" "index is out of bounds for axis 2").

(** Python's [seq[i]], negative indices counting from the end. *)
Definition py_getitem {A} (l : list A) (i : Z) : result A :=
  let n := Z.of_nat (length l) in
  let j := if Z.ltb i 0 then i + n else i in
  if Z.ltb j 0 then raise (Exn "IndexError" "list index out of range")
  else match nth_error l (Z.to_nat j) with
       | Some x => ok x
       | None => raise (Exn "IndexError" "list index out of range")
       end.

(** ** External libraries *)

(** The result of [cv2.imdecode(buf, cv2.IMREAD_COLOR)]: it raises on an
    empty buffer, returns [None] on bytes that are not an image, and a BGR
    array otherwise. *)
Inductive decoded :=
| DecodeRaises (e : exn)
| DecodeNone
| DecodeImage (img : ndarray3 uint8).

Record Libs := {
  (** OpenCV *)
  cv2_imdecode : list Byte.byte -> decoded;
  cv2_BGR2GRAY : ndarray3 uint8 -> ndarray2 uint8;
  cv2_equalizeHist : ndarray2 uint8 -> ndarray2 uint8;
  cv2_resize : ndarray3 uint8 -> nat * nat -> ndarray3 uint8;
  (** PIL: [Image.fromarray(a).save(buf, format="PNG")] *)
  pil_png : ndarray3 uint8 -> result (list Byte.byte);
  (** Keras: [load_model(path)] *)
  keras_load_model : string -> result unit;
  (** Keras: [model.predict(batch, verbose=0)] *)
  keras_predict : list (ndarray3 spec_float) -> result (ndarray2 spec_float);
  (** tf-keras-vis: [Gradcam(model)(loss, batch, model_modifier=..., penultimate_layer=-2)]
      for the loss [output[:, c]]; [gradcam_signature] below states what the
      library does with this call *)
  gradcam_call : list (ndarray3 spec_float) -> Z -> result (list (ndarray2 spec_float));
  (** tf-keras-vis: [normalize] *)
  tfkv_normalize : ndarray2 spec_float -> result (ndarray2 spec_float);
  (** matplotlib: the two-panel figure saved as PNG *)
  plt_figure_png : ndarray3 spec_float -> ndarray2 spec_float -> result (list Byte.byte);
  (** [base64.b64encode(b).decode()] *)
  b64encode : list Byte.byte -> string;
  (** [f"{x:.2f}"] of a Python float *)
  format_2f : spec_float -> string;
  (** [datetime.now().strftime("%Y-%m-%d %H:%M:%S")] *)
  now_str : string
}.

(** [a.shape == (h, w)] *)
Definition has_shape2 {A} (a : ndarray2 A) (h w : nat) : Prop :=
  length a = h /\ Forall (fun row => length row = w) a.

(** The shapes OpenCV documents for the four calls of [preprocess]: a decoded
    colour image is a non-empty array of three channels, the grayscale
    conversion and the equalization keep the rows and columns, and
    [cv2.resize(src, (w, h))] returns [h] rows and [w] columns with the
    channels of [src]. *)
Record cv2_contract (L : Libs) : Prop := {
  imdecode_shape : forall b img,
    cv2_imdecode L b = DecodeImage img ->
    exists h w, (0 < h)%nat /\ (0 < w)%nat /\ has_shape img h w 3;
  BGR2GRAY_shape : forall img h w,
    has_shape img h w 3 -> has_shape2 (cv2_BGR2GRAY L img) h w;
  equalizeHist_shape : forall g h w,
    has_shape2 g h w -> has_shape2 (cv2_equalizeHist L g) h w;
  resize_shape : forall img h0 w0 c w h,
    (0 < h0)%nat -> (0 < w0)%nat -> has_shape img h0 w0 c ->
    has_shape (cv2_resize L img (w, h)) h w c
}.


(** ** utils.py *)

Module Utils.

(** The names bound in the module: its imports and its class. *)
Definition module_globals : list string :=
  ["cv2"; "np"; "Image"; "io"; "ImagePreprocessor"].

(** Evaluation of a global name; an unbound one raises NameError. *)
Definition global_name (x : string) : result unit :=
  if existsb (String.eqb x) module_globals then ok tt
  else raise (Exn "NameError" ("name '" ++ x ++ "' is not defined")).

Record ImagePreprocessor := {
  target_size : nat * nat;
  mean : list spec_float;
  std : list spec_float
}.

(** [ImagePreprocessor.__init__] with its default argument. *)
Definition init : ImagePreprocessor := {|
  target_size := (224%nat, 224%nat);
  mean := [Float.literal 485 1000; Float.literal 456 1000; Float.literal 406 1000];
  std := [Float.literal 229 1000; Float.literal 224 1000; Float.literal 225 1000]
|}.

(** [cv2.cvtColor(g, cv2.COLOR_GRAY2RGB)]: the channel copied three times. *)
Definition GRAY2RGB (g : ndarray2 uint8) : ndarray3 uint8 :=
  map (map (fun v => [v; v; v])) g.

(** [np.float32(v) / 255.0] *)
Definition scale_value (v : uint8) : spec_float :=
  Float.div32 (Float.f32_of_Z (uint8_to_Z v)) (Float.to_f32 (Float.literal 255 1)).

(** [resized.astype(np.float32) / 255.0] *)
Definition scale (a : ndarray3 uint8) : ndarray3 spec_float :=
  map3 scale_value a.

(** [(x - mean[i]) / std[i]] on float32 data. *)
Definition standardize_value (m s x : spec_float) : spec_float :=
  Float.div32 (Float.sub32 x (Float.to_f32 m)) (Float.to_f32 s).

(** One iteration of the loop [for i in range(3)] of [preprocess]. *)
Definition standardize_channel (self : ImagePreprocessor)
    (a : ndarray3 spec_float) (i : nat) : result (ndarray3 spec_float) :=
  let* m := py_getitem (mean self) (Z.of_nat i) in
  let* s := py_getitem (std self) (Z.of_nat i) in
  update_channel i (standardize_value m s) a.

(** The body of the [try] block of [preprocess]; [image_bytes] is what
    [image_file.read()] returned. *)
Definition preprocess_body (L : Libs) (self : ImagePreprocessor)
    (image_bytes : list Byte.byte) : result (ndarray3 spec_float) :=
  let* image :=
    match cv2_imdecode L image_bytes with
    | DecodeRaises e => raise e
    | DecodeNone => raise (Exn "ValueError" "Could not decode image")
    | DecodeImage img => ok img
    end in
  let gray := cv2_BGR2GRAY L image in
  let equalized := cv2_equalizeHist L gray in
  let rgb := GRAY2RGB equalized in
  let resized := cv2_resize L rgb (target_size self) in
  let normalized := scale resized in
  for_each (standardize_channel self) (seq 0 3) normalized.

Definition preprocess (L : Libs) (self : ImagePreprocessor)
    (image_bytes : list Byte.byte) : option (ndarray3 spec_float) :=
  catch_none (preprocess_body L self image_bytes).

(** [x * std[i] + mean[i]] on float32 data. *)
Definition denormalize_value (m s x : spec_float) : spec_float :=
  Float.add32 (Float.mul32 x (Float.to_f32 s)) (Float.to_f32 m).

Definition denormalize_channel (self : ImagePreprocessor)
    (a : ndarray3 spec_float) (i : nat) : result (ndarray3 spec_float) :=
  let* s := py_getitem (std self) (Z.of_nat i) in
  let* m := py_getitem (mean self) (Z.of_nat i) in
  update_channel i (denormalize_value m s) a.

(** Truncation of a float in [0, 255] to an integer, as [astype(np.uint8)]
    does after the clip. *)
Definition trunc_uint8 (x : spec_float) : uint8 :=
  match x with
  | S754_finite false m e =>
      let z := if Z.leb 0 e then Z.shiftl (Zpos m) e else Z.shiftr (Zpos m) (- e) in
      match Byte.of_N (Z.to_N (Z.land z 255)) with
      | Some b => b
      | None => Byte.x00
      end
  | _ => Byte.x00
  end.

(** [np.clip(x * 255, 0, 255)]: a NaN stays a NaN. *)
Definition clip_255 (x : spec_float) : spec_float :=
  let y := Float.mul32 x (Float.f32_of_Z 255) in
  if Float.ltb y (Float.f32_of_Z 0) then Float.f32_of_Z 0
  else if Float.ltb (Float.f32_of_Z 255) y then Float.f32_of_Z 255
  else y.

(** The body of the [try] block of [prepare_for_display]. *)
Definition prepare_for_display_body (L : Libs) (self : ImagePreprocessor)
    (preprocessed_image : ndarray3 spec_float) : result string :=
  let denormalized := preprocessed_image in
  let* denormalized := for_each (denormalize_channel self) (seq 0 3) denormalized in
  let denormalized := map3 (fun x => trunc_uint8 (clip_255 x)) denormalized in
  let* png := pil_png L denormalized in
  let* _ := global_name "base64" in
  ok (b64encode L png).

Definition prepare_for_display (L : Libs) (self : ImagePreprocessor)
    (preprocessed_image : ndarray3 spec_float) : option string :=
  catch_none (prepare_for_display_body L self preprocessed_image).

End Utils.

(** ** The process state *)

(** A call into the classifier that the code makes. *)
Inductive call :=
| CallKerasPredict (batch : list (ndarray3 spec_float))
| CallGradcam (batch : list (ndarray3 spec_float)) (target : Z).

(** The mutable state of the process: the dictionary [self.class_info] of the
    one [SkinCancerModel] object, which every alias of a record points into,
    and the calls into the classifier made so far. *)
Record world := World {
  class_info : gmap Z (gmap string string);
  calls : list call
}.

(** Code that reads and writes the state and may raise. *)
Definition prog (A : Type) : Type := world -> result A * world.

Definition ret {A} (a : A) : prog A := fun w => (ok a, w).
Definition throw {A} (e : exn) : prog A := fun w => (raise e, w).
Definition lift {A} (r : result A) : prog A := fun w => (r, w).

Definition pbind {A B} (c : prog A) (k : A -> prog B) : prog B :=
  fun w => match c w with
           | (inl e, w') => (inl e, w')
           | (inr a, w') => k a w'
           end.

Notation "'let!' x ':=' c 'in' k" := (pbind c (fun x => k))
  (at level 10, x pattern, c at level 100, k at level 200).

(** [try: c except Exception as e: h e]; what [c] did to the state before it
    raised stays done. *)
Definition try_except {A} (c : prog A) (h : exn -> prog A) : prog A :=
  fun w => match c w with
           | (inl e, w') => h e w'
           | (inr a, w') => (inr a, w')
           end.

Definition record_call (c : call) : prog unit :=
  fun w => (ok tt, World (class_info w) (calls w ++ [c])).

Definition read_class_info : prog (gmap Z (gmap string string)) :=
  fun w => (ok (class_info w), w).

Definition write_class_info (d : gmap Z (gmap string string)) : prog unit :=
  fun w => (ok tt, World d (calls w)).

Fixpoint pfor_each {A S} (body : S -> A -> prog S) (xs : list A) (s : S) : prog S :=
  match xs with
  | [] => ret s
  | x :: xs' => let! s' := body s x in pfor_each body xs' s'
  end.

(** A Python [dict] with string keys, in insertion order. *)
Abbreviation dict V := (list (string * V)) (only parsing).

Definition dict_get {V} (d : dict V) (k : string) : option V :=
  snd <$> find (fun kv => String.eqb (fst kv) k) d.

(** [d[k] = v] *)
Fixpoint dict_set {V} (d : dict V) (k : string) (v : V) : dict V :=
  match d with
  | [] => [(k, v)]
  | (k', v') :: d' =>
      if String.eqb k' k then (k', v) :: d' else (k', v') :: dict_set d' k v
  end.

(** [enumerate(xs)] *)
Definition enumerate {A} (xs : list A) : list (Z * A) :=
  imap (fun i x => (Z.of_nat i, x)) xs.

(** ** model_loader.py *)

Module ModelLoader.

(** The scan of NumPy's [argmax] over floating-point data from position [i]
    on: [mp] is the running maximum and [idx] its position; a NaN is taken as
    the maximum and ends the scan. *)
Fixpoint argmax_scan (mp : spec_float) (idx i : nat) (xs : list spec_float) : nat :=
  match xs with
  | [] => idx
  | x :: xs' =>
      if negb (Float.leb x mp)
      then if Float.is_nan x then i else argmax_scan x i (S i) xs'
      else argmax_scan mp idx (S i) xs'
  end.

(** [np.argmax(row)] *)
Definition np_argmax (row : list spec_float) : result nat :=
  match row with
  | [] => raise (Exn "ValueError" "attempt to get argmax of an empty sequence")
  | x :: xs => if Float.is_nan x then ok 0%nat else ok (argmax_scan x 0 1 xs)
  end.

(** A [SkinCancerModel] object.  The Keras model it holds is reached through
    [Libs]; its dictionary [class_info] is in the [world]. *)
Record SkinCancerModel := {
  class_names : list string
}.

Definition class_names_0 : list string := [
  "Melanoma (MEL)";
  "Nevus (NV)";
  "Basal Cell Carcinoma (BCC)";
  "Actinic Keratoses (AKIEC)";
  "Benign Keratosis (BKL)";
  "Dermatofibroma (DF)";
  "Vascular lesions (VASC)"
].

Definition info_record (name abbr severity description action common_locations : string)
  : gmap string string :=
  list_to_map [
    ("name", name);
    ("abbr", abbr);
    ("severity", severity);
    ("description", description);
    ("action", action);
    ("common_locations", common_locations)
  ].

Definition class_info_0 : gmap Z (gmap string string) :=
  list_to_map [
    (0, info_record "Melanoma" "MEL" "High"
          "Most serious type of skin cancer. Requires immediate medical attention."
          "Consult a dermatologist immediately"
          "Face, chest, legs, back");
    (1, info_record "Nevus" "NV" "Low"
          "Common mole, usually benign but monitor for changes."
          "Regular self-examination recommended"
          "Anywhere on body");
    (2, info_record "Basal Cell Carcinoma" "BCC" "Medium"
          "Most common but least dangerous skin cancer. Rarely spreads."
          "Schedule dermatologist appointment"
          "Sun-exposed areas");
    (3, info_record "Actinic Keratoses" "AKIEC" "Medium-High"
          "Pre-cancerous growths that can develop into SCC."
          "Consult dermatologist within 2-4 weeks"
          "Face, ears, scalp, hands");
    (4, info_record "Benign Keratosis" "BKL" "Low"
          "Harmless skin growths, often called seborrheic keratosis."
          "No immediate action needed"
          "Chest, back, face");
    (5, info_record "Dermatofibroma" "DF" "Low"
          "Benign fibrous nodule, usually harmless."
          "Monitor for changes"
          "Legs, arms");
    (6, info_record "Vascular lesions" "VASC" "Low-Medium"
          "Blood vessel abnormalities, usually benign."
          "Consult if changing appearance"
          "Face, neck, upper body")
  ].

(** [SkinCancerModel.__init__]: a failure to load the model is re-raised. *)
Definition init (L : Libs) (model_path : string) : prog SkinCancerModel :=
  let! _ := lift (keras_load_model L model_path) in
  let! _ := write_class_info class_info_0 in
  ret {| class_names := class_names_0 |}.

(** The body of the [try] block of [predict]. *)
Definition predict_body (L : Libs) (self : SkinCancerModel)
    (preprocessed_image : ndarray3 spec_float)
  : prog (Z * spec_float * dict spec_float) :=
  let image_batch := [preprocessed_image] in
  let! _ := record_call (CallKerasPredict image_batch) in
  let! predictions := lift (keras_predict L image_batch) in
  let! row := lift (py_getitem predictions 0) in
  let! predicted_class := lift (np_argmax row) in
  let predicted_class := Z.of_nat predicted_class in
  let! p := lift (py_getitem row predicted_class) in
  let confidence := Float.mul64 (Float.to_f64 p) (Float.f64_of_Z 100) in
  let! probabilities :=
    lift (for_each
            (fun (d : dict spec_float) (ip : Z * spec_float) =>
               let (i, prob) := ip in
               let* name := py_getitem (class_names self) i in
               ok (dict_set d name (Float.mul64 (Float.to_f64 prob) (Float.f64_of_Z 100))))
            (enumerate row) []) in
  ret (predicted_class, confidence, probabilities).

Definition predict (L : Libs) (self : SkinCancerModel)
    (preprocessed_image : ndarray3 spec_float)
  : prog (option Z * option spec_float * option (dict spec_float)) :=
  try_except
    (let! r := predict_body L self preprocessed_image in
     let '(predicted_class, confidence, probabilities) := r in
     ret (Some predicted_class, Some confidence, Some probabilities))
    (fun _ => ret (None, None, None)).

(** The body of the [try] block of [generate_gradcam]. *)
Definition generate_gradcam_body (L : Libs) (self : SkinCancerModel)
    (image : ndarray3 spec_float) (predicted_class : Z) : prog string :=
  let! _ := record_call (CallGradcam [image] predicted_class) in
  let! cam := lift (gradcam_call L [image] predicted_class) in
  let! cam0 := lift (py_getitem cam 0) in
  let! cam := lift (tfkv_normalize L cam0) in
  let! buf := lift (plt_figure_png L image cam) in
  let heatmap_base64 := b64encode L buf in
  ret heatmap_base64.

Definition generate_gradcam (L : Libs) (self : SkinCancerModel)
    (image : ndarray3 spec_float) (predicted_class : Z) : prog (option string) :=
  try_except
    (let! heatmap_base64 := generate_gradcam_body L self image predicted_class in
     ret (Some heatmap_base64))
    (fun _ => ret None).

(** [get_class_info]: [info] is the stored record itself, so the assignment
    to [info['full_name']] writes into [self.class_info]. *)
Definition get_class_info (self : SkinCancerModel) (class_idx : Z)
  : prog (option (gmap string string)) :=
  let! registry := read_class_info in
  match registry !! class_idx with
  | Some info =>
      let! full_name := lift (py_getitem (class_names self) class_idx) in
      let info := <["full_name" := full_name]> info in
      let! _ := write_class_info (<[class_idx := info]> registry) in
      ret (Some info)
  | None => ret None
  end.

End ModelLoader.

(** ** app.py *)

Module App.

(** An uploaded file: its name and the bytes [read()] returns. *)
Record file_storage := {
  filename : string;
  stream : list Byte.byte
}.

(** A request whose body Flask has accepted and parsed: [request.files].
    (A body above [MAX_CONTENT_LENGTH] is refused by Flask with status 413
    when [request.files] is read; such a request never reaches the checks of
    the view and is not a value of this type.) *)
Record request := {
  files : gmap string file_storage
}.

(** The module globals [model] and [preprocessor]. *)
Record globals := {
  model : option ModelLoader.SkinCancerModel;
  preprocessor : option Utils.ImagePreprocessor
}.

(** The initialisation at import time: both globals are set, or both are
    [None] when the model cannot be loaded. *)
Definition startup (L : Libs) : prog globals :=
  try_except
    (let! m := ModelLoader.init L "models/resnet50_model.h5" in
     let p := Utils.init in
     ret {| model := Some m; preprocessor := Some p |})
    (fun _ => ret {| model := None; preprocessor := None |}).

Record prediction := {
  p_class : Z;
  p_class_name : string;
  p_confidence : string;
  p_raw_confidence : spec_float;
  p_timestamp : string
}.

(** The dictionary [response] of [predict]. *)
Record predict_response := {
  r_success : bool;
  r_prediction : prediction;
  r_probabilities : dict string;
  r_sorted_probabilities : dict spec_float;
  r_class_info : option (gmap string string);
  r_display_image : option string;
  r_heatmap : option string
}.

(** What a view hands to [jsonify]. *)
Inductive payload :=
| ErrorPayload (error : string)
| PredictPayload (r : predict_response)
| InfoPayload (info : option (gmap string string))
| HealthPayload (status : string) (model_loaded : bool).

(** A view's return value: the payload and the HTTP status. *)
Definition response : Type := payload * Z.

(** The Python values a payload is made of, as the JSON encoder of
    [jsonify] meets them. *)
#[warnings="-register-all"]
Inductive pyval :=
| PyNone
| PyBool (b : bool)
| PyStr (s : string)
| PyFloat (x : spec_float)
| NpInt64 (z : Z)
| PyDict (items : list (string * pyval)).

Definition py_optional_str (o : option string) : pyval :=
  match o with
  | Some s => PyStr s
  | None => PyNone
  end.

Definition py_str_dict (d : gmap string string) : pyval :=
  PyDict (map (fun kv : string * string => (fst kv, PyStr (snd kv))) (map_to_list d)).

(** The object each view passes to [jsonify].  In the response of [predict]
    the entry ['class'] is [predicted_class] itself, the [numpy.int64] that
    [np.argmax] returned; [raw_confidence] and the values of
    [sorted_probabilities] are Python floats. *)
Definition to_pyval (p : payload) : pyval :=
  match p with
  | ErrorPayload error => PyDict [("error", PyStr error)]
  | PredictPayload r =>
      PyDict [
        ("success", PyBool (r_success r));
        ("prediction", PyDict [
           ("class", NpInt64 (p_class (r_prediction r)));
           ("class_name", PyStr (p_class_name (r_prediction r)));
           ("confidence", PyStr (p_confidence (r_prediction r)));
           ("raw_confidence", PyFloat (p_raw_confidence (r_prediction r)));
           ("timestamp", PyStr (p_timestamp (r_prediction r)))]);
        ("probabilities",
         PyDict (map (fun kv : string * string => (fst kv, PyStr (snd kv)))
                     (r_probabilities r)));
        ("sorted_probabilities",
         PyDict (map (fun kv : string * spec_float => (fst kv, PyFloat (snd kv)))
                     (r_sorted_probabilities r)));
        ("class_info", match r_class_info r with
                       | Some d => py_str_dict d
                       | None => PyNone
                       end);
        ("display_image", py_optional_str (r_display_image r));
        ("heatmap", py_optional_str (r_heatmap r))]
  | InfoPayload info =>
      match info with
      | Some d => py_str_dict d
      | None => PyNone
      end
  | HealthPayload status model_loaded =>
      PyDict [("status", PyStr status); ("model_loaded", PyBool model_loaded)]
  end.

(** The JSON encoder walks the object in order and raises TypeError at the
    first value that is none of [None], [bool], [str], [float], [int],
    [list] or [dict]: a NumPy scalar is such a value. *)
Fixpoint json_unserializable (v : pyval) : option exn :=
  match v with
  | NpInt64 _ => Some (Exn "TypeError" "Object of type int64 is not JSON serializable")
  | PyDict items =>
      (fix first (l : list (string * pyval)) : option exn :=
         match l with
         | [] => None
         | kv :: l' =>
             match json_unserializable (snd kv) with
             | Some e => Some e
             | None => first l'
             end
         end) items
  | _ => None
  end.

(** [jsonify(p)] *)
Definition jsonify (p : payload) : result payload :=
  match json_unserializable (to_pyval p) with
  | Some e => raise e
  | None => ok p
  end.

Definition allowed_extensions : list string := ["png"; "jpg"; "jpeg"; "bmp"; "tiff"].

(** [s.rsplit('.', 1)] when [s] has a dot: the text before the last dot and
    the text after it. *)
Fixpoint rsplit_dot (s : string) : option (string * string) :=
  match s with
  | EmptyString => None
  | String c s' =>
      match rsplit_dot s' with
      | Some (h, t) => Some (String c h, t)
      | None => if Ascii.eqb c "." then Some (EmptyString, s') else None
      end
  end.

Definition lower_ascii (c : ascii) : ascii :=
  let n := nat_of_ascii c in
  if Nat.leb 65 n && Nat.leb n 90 then ascii_of_nat (n + 32) else c.

(** [s.lower()] *)
Fixpoint lower (s : string) : string :=
  match s with
  | EmptyString => EmptyString
  | String c s' => String (lower_ascii c) (lower s')
  end.

(** The negation of
    ['.' not in name or name.rsplit('.', 1)[1].lower() not in allowed_extensions]. *)
Definition allowed_file (name : string) : bool :=
  match rsplit_dot name with
  | None => false
  | Some (_, ext) => existsb (String.eqb (lower ext)) allowed_extensions
  end.

(** Use of a value that may be [None] where Python needs an object. *)
Definition not_none {A} (o : option A) (msg : string) : result A :=
  match o with
  | Some a => ok a
  | None => raise (Exn "TypeError" msg)
  end.

(** Stable insertion into a list sorted by descending value. *)
Fixpoint insert_desc (x : string * spec_float) (l : dict spec_float) : dict spec_float :=
  match l with
  | [] => [x]
  | y :: l' => if Float.ltb (snd y) (snd x) then x :: y :: l' else y :: insert_desc x l'
  end.

(** [dict(sorted(d.items(), key=lambda x: x[1], reverse=True))] for values
    that [<] orders, that is when none is a NaN: descending values, equal
    values in their original order.  (With a NaN among the values Python's
    result depends on the comparisons its sort happens to make; no statement
    below uses this function on such values.) *)
Definition sorted_desc (d : dict spec_float) : dict spec_float :=
  fold_left (fun acc x => insert_desc x acc) d [].

(** The view [predict].  [return jsonify(response)] is the last statement of
    the [try] block: an exception of [jsonify] is answered by the handler. *)
Definition predict (L : Libs) (g : globals) (req : request) : prog response :=
  match model g, preprocessor g with
  | Some model, Some preprocessor =>
      match files req !! "file" with
      | None => ret (ErrorPayload "No file uploaded", 400)
      | Some file =>
          if String.eqb (filename file) "" then
            ret (ErrorPayload "No file selected", 400)
          else if negb (allowed_file (filename file)) then
            ret (ErrorPayload "Invalid file type. Please upload an image.", 400)
          else
            try_except
              (match Utils.preprocess L preprocessor (stream file) with
               | None => ret (ErrorPayload "Could not process image", 400)
               | Some preprocessed_image =>
                   let! r := ModelLoader.predict L model preprocessed_image in
                   let '(predicted_class, confidence, probabilities) := r in
                   match predicted_class with
                   | None => ret (ErrorPayload "Prediction failed", 500)
                   | Some predicted_class =>
                       let! heatmap_base64 :=
                         ModelLoader.generate_gradcam L model preprocessed_image predicted_class in
                       let display_image :=
                         Utils.prepare_for_display L preprocessor preprocessed_image in
                       let! class_info := ModelLoader.get_class_info model predicted_class in
                       let! probabilities :=
                         lift (not_none probabilities "'NoneType' object has no attribute 'items'") in
                       let formatted_probs :=
                         fold_left (fun (d : dict string) (kv : string * spec_float) =>
                                      dict_set d (fst kv) (format_2f L (snd kv) ++ "%"))
                                   probabilities [] in
                       let sorted_probs := sorted_desc probabilities in
                       let! class_name :=
                         lift (py_getitem (ModelLoader.class_names model) predicted_class) in
                       let! confidence :=
                         lift (not_none confidence
                                 "unsupported format string passed to NoneType.__format__") in
                       let response := PredictPayload {|
                              r_success := true;
                              r_prediction := {|
                                p_class := predicted_class;
                                p_class_name := class_name;
                                p_confidence := format_2f L confidence ++ "%";
                                p_raw_confidence := confidence;
                                p_timestamp := now_str L
                              |};
                              r_probabilities := formatted_probs;
                              r_sorted_probabilities := sorted_probs;
                              r_class_info := class_info;
                              r_display_image := display_image;
                              r_heatmap := heatmap_base64
                            |} in
                       let! body := lift (jsonify response) in
                       ret (body, 200)
                   end
               end)
              (fun e => ret (ErrorPayload (exn_msg e), 500))
      end
  | _, _ => ret (ErrorPayload "Model not loaded. Please check server logs.", 500)
  end.

(** The view [get_class_info] of the route [/class_info/<int:class_id>]. *)
Definition get_class_info (g : globals) (class_id : Z) : prog response :=
  match model g with
  | None => ret (ErrorPayload "Model not loaded", 500)
  | Some model =>
      if Z.leb 0 class_id && Z.ltb class_id (Z.of_nat (length (ModelLoader.class_names model)))
      then
        let! info := ModelLoader.get_class_info model class_id in
        ret (InfoPayload info, 200)
      else ret (ErrorPayload "Invalid class ID", 404)
  end.

(** The view [health_check]. *)
Definition health_check (g : globals) : response :=
  match model g, preprocessor g with
  | Some _, Some _ => (HealthPayload "healthy" true, 200)
  | _, _ => (HealthPayload "unhealthy" false, 500)
  end.

(** One operation of the running service. *)
Inductive operation :=
| OpPredict (req : request)
| OpClassInfo (class_id : Z)
| OpHealth.

Definition serve (L : Libs) (g : globals) (op : operation) : prog response :=
  match op with
  | OpPredict req => predict L g req
  | OpClassInfo class_id => get_class_info g class_id
  | OpHealth => ret (health_check g)
  end.

End App.

(** ** Properties stated by the specification *)

(** Every entry of a tensor is a finite number. *)
Definition all_finite (t : ndarray3 spec_float) : Prop :=
  Forall (Forall (Forall (fun x => Float.is_finite x = true))) t.

(** [t[r][c][ch]] *)
Definition entry {A} (t : ndarray3 A) (r c ch : nat) : option A :=
  match t !! r with
  | Some row => match row !! c with
                | Some px => px !! ch
                | None => None
                end
  | None => None
  end.

(** [i] is the stable argmax of [row]: no entry is above [row[i]] and every
    entry before it is strictly below. *)
Definition stable_argmax (row : list spec_float) (i : nat) : Prop :=
  exists x, row !! i = Some x /\
    (forall j y, row !! j = Some y -> Float.leb y x = true) /\
    (forall j y, (j < i)%nat -> row !! j = Some y -> Float.ltb y x = true).

(** The six authored fields of a metadata record. *)
Definition authored_fields : list string :=
  ["name"; "abbr"; "severity"; "description"; "action"; "common_locations"].

(** [r] holds the six authored fields of class [i]. *)
Definition is_record_of (i : Z) (r : gmap string string) : Prop :=
  exists r0, ModelLoader.class_info_0 !! i = Some r0 /\
    forall k, k ∈ authored_fields -> r !! k = r0 !! k.

(** A registry that the running service can hold: the seven records at the
    start, each possibly extended with its display name under
    ["full_name"]. *)
Definition registry_ok (d : gmap Z (gmap string string)) : Prop :=
  forall i,
    match ModelLoader.class_info_0 !! i with
    | None => d !! i = None
    | Some r0 =>
        d !! i = Some r0 \/
        exists n, nth_error ModelLoader.class_names_0 (Z.to_nat i) = Some n /\
                  d !! i = Some (<["full_name" := n]> r0)
    end.

(** The three iterations of the standardization loop on one pixel. *)
Definition standardize_pixel (self : Utils.ImagePreprocessor) (px : list spec_float)
  : list spec_float :=
  match Utils.mean self, Utils.std self with
  | [m0; m1; m2], [s0; s1; s2] =>
      alter (Utils.standardize_value m2 s2) 2%nat
        (alter (Utils.standardize_value m1 s1) 1%nat
           (alter (Utils.standardize_value m0 s0) 0%nat px))
  | _, _ => px
  end.

(** The position of a number that is not a NaN in the order of IEEE
    comparison: the class (infinities, negative, zero, positive), then the
    exponent, then the mantissa. *)
Definition order_key (x : spec_float) : Z * (Z * Z) :=
  match x with
  | S754_nan => (0, (0, 0))
  | S754_zero _ => (0, (0, 0))
  | S754_infinity true => (-2, (0, 0))
  | S754_infinity false => (2, (0, 0))
  | S754_finite true m e => (-1, (- e, - Zpos m))
  | S754_finite false m e => (1, (e, Zpos m))
  end.

Definition key_le (a b : Z * (Z * Z)) : Prop :=
  fst a < fst b \/
  (fst a = fst b /\
   (fst (snd a) < fst (snd b) \/
    (fst (snd a) = fst (snd b) /\ snd (snd a) <= snd (snd b)))).

Definition key_lt (a b : Z * (Z * Z)) : Prop :=
  fst a < fst b \/
  (fst a = fst b /\
   (fst (snd a) < fst (snd b) \/
    (fst (snd a) = fst (snd b) /\ snd (snd a) < snd (snd b)))).

(** The rational number a float stands for (0 for an infinity or a NaN). *)
Definition to_Q (x : spec_float) : Q :=
  match x with
  | S754_finite s m e =>
      (inject_Z (if s then Zneg m else Zpos m) * Qpower (2 # 1) e)%Q
  | _ => 0%Q
  end.

(** The exact sum of a list of floats. *)
Definition exact_sum (xs : list spec_float) : Q :=
  fold_right (fun x acc => (to_Q x + acc)%Q) 0%Q xs.

(** The mantissa [q * 2^k]. *)
Definition shl (q : positive) (k : Z) : positive :=
  match k with
  | Zpos p => Pos.iter xO q p
  | _ => q
  end.

(** The probability map [predict] builds from seven scores. *)
Definition percent_map (row : list spec_float) : dict spec_float :=
  combine ModelLoader.class_names_0
    (map (fun x => Float.mul64 (Float.to_f64 x) (Float.f64_of_Z 100)) row).

(** [x] is a finite number of the float32 format. *)
Definition finite32 (x : spec_float) : bool :=
  Float.is_finite x && valid_binary Float.prec32 Float.emax32 x.

(** [buf] decodes to an image. *)
Definition decodes (L : Libs) (buf : list Byte.byte) : bool :=
  match cv2_imdecode L buf with
  | DecodeImage _ => true
  | _ => false
  end.

(** The state after the service has handled the operations [ops] in turn. *)
Fixpoint serve_all (L : Libs) (g : App.globals) (ops : list App.operation) (w : world)
  : world :=
  match ops with
  | [] => w
  | op :: ops' => serve_all L g ops' (snd (App.serve L g op w))
  end.

(** A program that leaves the registry of class records as it found it. *)
Definition keeps_registry {A} (c : prog A) : Prop :=
  forall w, class_info (snd (c w)) = class_info w.

(** A program that takes a registry the service can hold to another one. *)
Definition preserves_registry {A} (c : prog A) : Prop :=
  forall w, registry_ok (class_info w) -> registry_ok (class_info (snd (c w))).

(** ** Further properties of the code *)

(** [ImagePreprocessor(target_size)]: the constructor with its argument. *)
Definition new_preprocessor (target_size : nat * nat) : Utils.ImagePreprocessor := {|
  Utils.target_size := target_size;
  Utils.mean := [Float.literal 485 1000; Float.literal 456 1000; Float.literal 406 1000];
  Utils.std := [Float.literal 229 1000; Float.literal 224 1000; Float.literal 225 1000]
|}.

(** The text has no dot. *)
Fixpoint no_dot (s : string) : bool :=
  match s with
  | EmptyString => true
  | String c s' => negb (Ascii.eqb c ".") && no_dot s'
  end.

(** The HTTP status of a view's answer. *)
Definition status (r : result App.response) : option Z :=
  match r with
  | inr (_, st) => Some st
  | inl _ => None
  end.

(** The entry [x] comes before the entry [y] in descending order of value. *)
Definition value_ge (x y : string * spec_float) : Prop :=
  Float.leb (snd y) (snd x) = true.

(** What [prepare_for_display] computes for the channel [ch] of a pixel
    before it encodes the image: the 8-bit value shown for a standardized
    entry. *)
Definition displayed_value (m s x : spec_float) : Byte.byte :=
  Utils.trunc_uint8 (Utils.clip_255 (Utils.denormalize_value m s x)).

(** The standardized values lie between -2.12 and 2.65. *)
Definition in_standard_range (x : spec_float) : Prop :=
  (- (212 # 100) <= to_Q x <= 265 # 100)%Q.

(** ** A small environment

    Stand-ins for the external libraries, used to run the code on concrete
    requests.  A buffer decodes to the one-pixel image of its first byte
    unless it is empty (OpenCV raises) or starts with a zero byte (not an
    image); the classifier answers [scores] and Grad-CAM answers [cam]. *)

Module Demo.

Definition imdecode (buf : list Byte.byte) : decoded :=
  match buf with
  | [] => DecodeRaises (Exn "error" "(-215:Assertion failed) !buf.empty() in function 'imdecode_'")
  | x :: _ => if Byte.eqb x Byte.x00 then DecodeNone else DecodeImage [[[x; x; x]]]
  end.

Definition BGR2GRAY (img : ndarray3 uint8) : ndarray2 uint8 :=
  map (map (fun px => default Byte.x00 (head px))) img.

Definition first_pixel (img : ndarray3 uint8) : list uint8 :=
  match img with
  | (px :: _) :: _ => px
  | _ => []
  end.

Definition resize (img : ndarray3 uint8) (dsize : nat * nat) : ndarray3 uint8 :=
  repeat (repeat (first_pixel img) (fst dsize)) (snd dsize).

(** NaN-propagating maximum and minimum of an array, as [np.max] and [np.min]. *)
Definition fmax (a b : spec_float) : spec_float :=
  if Float.is_nan a || Float.is_nan b then S754_nan
  else if Float.ltb a b then b else a.

Definition fmin (a b : spec_float) : spec_float :=
  if Float.is_nan a || Float.is_nan b then S754_nan
  else if Float.ltb b a then b else a.

(** [(row - min) / (max - min + epsilon)] with [epsilon = 1e-7], the maximum
    and the minimum being those of the row. *)
Definition normalize_row (row : list spec_float) : result (list spec_float) :=
  match row with
  | [] => raise (Exn "ValueError" "zero-size array to reduction operation maximum which has no identity")
  | x :: xs =>
      let mx := fold_left fmax xs x in
      let mn := fold_left fmin xs x in
      let eps := Float.to_f32 (Float.literal 1 10000000) in
      ok (map (fun v => Float.div32 (Float.sub32 v mn)
                                   (Float.add32 (Float.sub32 mx mn) eps)) row)
  end.

(** [normalize] of tf-keras-vis reduces over every axis but the first: a
    two-dimensional map is normalised row by row. *)
Definition normalize (a : ndarray2 spec_float) : result (ndarray2 spec_float) :=
  for_each (fun acc row => let* r := normalize_row row in ok (acc ++ [r])%list) a [].

Definition libs (scores : result (ndarray2 spec_float))
    (cam : result (list (ndarray2 spec_float))) : Libs := {|
  cv2_imdecode := imdecode;
  cv2_BGR2GRAY := BGR2GRAY;
  cv2_equalizeHist := fun g => g;
  cv2_resize := resize;
  pil_png := fun _ => ok [];
  keras_load_model := fun _ => ok tt;
  keras_predict := fun _ => scores;
  gradcam_call := fun _ _ => cam;
  tfkv_normalize := normalize;
  plt_figure_png := fun _ _ => ok [];
  b64encode := fun _ => "";
  format_2f := fun _ => "";
  now_str := "2026-01-01 00:00:00"
|}.

Definition one : spec_float := Float.f32_of_Z 1.
Definition zero : spec_float := Float.f32_of_Z 0.
Definition half : spec_float := Float.to_f32 (Float.literal 1 2).

(** Scores that form a distribution, with a tie for the maximum. *)
Definition tied_scores : list spec_float := [zero; half; zero; half; zero; zero; zero].

(** Raw scores that are not a distribution. *)
Definition raw_scores : list spec_float := [one; one; one; one; one; one; one].

(** A request that uploads [buf] as [lesion.PNG]. *)
Definition upload (buf : list Byte.byte) : App.request :=
  {| App.files := {[ "file" := {| App.filename := "lesion.PNG"; App.stream := buf |} ]} |}.

Definition loaded : App.globals :=
  {| App.model := Some {| ModelLoader.class_names := ModelLoader.class_names_0 |};
     App.preprocessor := Some Utils.init |}.

Definition world_0 : world := World ModelLoader.class_info_0 [].

End Demo.

(** * Verification *)

(** ** The exception and state monads *)

Lemma catch_none_None {A} (c : result A) :
  catch_none c = None <-> exists e, c = inl e.
Proof.
  destruct c as [e|a]; simpl; split; intros H; try discriminate; eauto.
  destruct H as [e H]. discriminate.
Qed.

Lemma catch_none_Some {A} (c : result A) (a : A) :
  catch_none c = Some a <-> c = inr a.
Proof.
  destruct c as [e|a']; simpl; split; intros H; try discriminate; congruence.
Qed.

Lemma keeps_registry_ret {A} (a : A) : keeps_registry (ret a).
Proof. intros w. reflexivity. Qed.

Lemma keeps_registry_lift {A} (r : result A) : keeps_registry (lift r).
Proof. intros w. reflexivity. Qed.

Lemma keeps_registry_throw {A} (e : exn) : keeps_registry (@throw A e).
Proof. intros w. reflexivity. Qed.

Lemma keeps_registry_record_call (c : call) : keeps_registry (record_call c).
Proof. intros w. reflexivity. Qed.

Lemma keeps_registry_bind {A B} (c : prog A) (k : A -> prog B) :
  keeps_registry c -> (forall a, keeps_registry (k a)) -> keeps_registry (pbind c k).
Proof.
  intros Hc Hk w. unfold pbind. specialize (Hc w).
  destruct (c w) as [[e|a] w1]; simpl in *; [assumption|].
  rewrite Hk. assumption.
Qed.

Lemma keeps_registry_try {A} (c : prog A) (h : exn -> prog A) :
  keeps_registry c -> (forall e, keeps_registry (h e)) -> keeps_registry (try_except c h).
Proof.
  intros Hc Hh w. unfold try_except. specialize (Hc w).
  destruct (c w) as [[e|a] w1]; simpl in *; [|assumption].
  rewrite Hh. assumption.
Qed.

(** ** model_loader.py: [predict] is all or nothing *)

Lemma predict_cases (L : Libs) (self : ModelLoader.SkinCancerModel)
    (img : ndarray3 spec_float) (w : world) :
  (exists c conf probs w',
      ModelLoader.predict_body L self img w = (inr (c, conf, probs), w') /\
      ModelLoader.predict L self img w = (inr (Some c, Some conf, Some probs), w')) \/
  (exists e w',
      ModelLoader.predict_body L self img w = (inl e, w') /\
      ModelLoader.predict L self img w = (inr (None, None, None), w')).
Proof.
  unfold ModelLoader.predict, try_except, pbind.
  destruct (ModelLoader.predict_body L self img w) as [[e|[[c conf] probs]] w'].
  - right. exists e, w'. split; reflexivity.
  - left. exists c, conf, probs, w'. split; reflexivity.
Qed.

(** C10: for every input [predict] returns normally, and what it returns is
    either a triple whose class index, confidence and probability map are all
    present or the triple [(None, None, None)]; hence the class index is
    [None] exactly when the two other components are. *)
Theorem predict_all_or_nothing (L : Libs) (self : ModelLoader.SkinCancerModel)
    (img : ndarray3 spec_float) (w : world) :
  exists pc conf probs,
    fst (ModelLoader.predict L self img w) = inr (pc, conf, probs) /\
    ((is_Some pc /\ is_Some conf /\ is_Some probs) \/
     (pc = None /\ conf = None /\ probs = None)) /\
    (pc = None <-> conf = None /\ probs = None).
Proof.
  destruct (predict_cases L self img w)
    as [(c & conf & probs & w' & _ & ->)|(e & w' & _ & ->)]; simpl.
  - exists (Some c), (Some conf), (Some probs). split; [reflexivity|]. split.
    + left. repeat split; eexists; reflexivity.
    + split; [discriminate|]. intros [? _]. discriminate.
  - exists None, None, None. split; [reflexivity|]. split.
    + right. repeat split.
    + split; intros; repeat split.
Qed.

(** ** utils.py: [prepare_for_display] *)

(** C5: [prepare_for_display] returns [None] for every tensor: the module
    [utils] never imports [base64], so the encoding step raises NameError,
    which the handler of the function turns into [None]. *)
Theorem prepare_for_display_returns_None (L : Libs) (self : Utils.ImagePreprocessor)
    (t : ndarray3 spec_float) :
  Utils.prepare_for_display L self t = None.
Proof.
  unfold Utils.prepare_for_display, Utils.prepare_for_display_body.
  apply catch_none_None.
  destruct (for_each (Utils.denormalize_channel self) (seq 0 3) t) as [e|d]; simpl.
  - exists e. reflexivity.
  - destruct (pil_png L _) as [e|png]; simpl.
    + exists e. reflexivity.
    + eexists. reflexivity.
Qed.

(** ** app.py: bytes that do not decode *)

Lemma preprocess_undecodable (L : Libs) (self : Utils.ImagePreprocessor) (buf : list Byte.byte) :
  decodes L buf = false ->
  (exists e, Utils.preprocess_body L self buf = inl e) /\
  (cv2_imdecode L buf = DecodeNone ->
   Utils.preprocess_body L self buf = inl (Exn "ValueError" "Could not decode image")).
Proof.
  unfold decodes, Utils.preprocess_body. intros H.
  destruct (cv2_imdecode L buf) as [e| |img]; try discriminate; simpl.
  - split; [eauto|discriminate].
  - split; [eauto|reflexivity].
Qed.

(** C4: when the uploaded bytes do not decode, [preprocess] fails: its body
    raises (ValueError "Could not decode image" when OpenCV returns no image)
    and the function returns its failure value [None]; the view [predict]
    then answers with an error payload and makes no call into the classifier,
    and for a loaded service and an accepted file name that answer is
    "Could not process image" with status 400. *)
Theorem undecodable_bytes_rejected (L : Libs) (g : App.globals) (req : App.request)
    (file : App.file_storage) (w : world) :
  App.files req !! "file" = Some file ->
  decodes L (App.stream file) = false ->
  (forall self, Utils.preprocess L self (App.stream file) = None) /\
  (cv2_imdecode L (App.stream file) = DecodeNone ->
   forall self, Utils.preprocess_body L self (App.stream file)
                = inl (Exn "ValueError" "Could not decode image")) /\
  calls (snd (App.predict L g req w)) = calls w /\
  (exists msg status, fst (App.predict L g req w) = inr (App.ErrorPayload msg, status)) /\
  (is_Some (App.model g) -> is_Some (App.preprocessor g) ->
   App.filename file <> "" -> App.allowed_file (App.filename file) = true ->
   App.predict L g req w = (inr (App.ErrorPayload "Could not process image", 400), w)).
Proof.
  intros Hfile Hdec.
  assert (Hpre : forall self, Utils.preprocess L self (App.stream file) = None).
  { intros self. unfold Utils.preprocess. apply catch_none_None.
    apply (preprocess_undecodable L self _ Hdec). }
  split; [exact Hpre|]. split.
  { intros Hnone self. apply (preprocess_undecodable L self _ Hdec). exact Hnone. }
  assert (Hrun : forall m p,
    App.model g = Some m -> App.preprocessor g = Some p ->
    App.filename file <> "" -> App.allowed_file (App.filename file) = true ->
    App.predict L g req w = (inr (App.ErrorPayload "Could not process image", 400), w)).
  { intros m p Hm Hp Hname Hext. unfold App.predict. rewrite Hm, Hp, Hfile.
    destruct (String.eqb_spec (App.filename file) "") as [Heq|_]; [contradiction|].
    rewrite Hext. simpl. unfold try_except. rewrite Hpre. reflexivity. }
  assert (Hany : calls (snd (App.predict L g req w)) = calls w /\
    exists msg status, fst (App.predict L g req w) = inr (App.ErrorPayload msg, status)).
  { destruct (App.model g) as [m|] eqn:Hm; [destruct (App.preprocessor g) as [p|] eqn:Hp|].
    - destruct (String.eqb_spec (App.filename file) "") as [Heq|Hne].
      + unfold App.predict. rewrite Hm, Hp, Hfile, Heq. simpl. eauto.
      + destruct (App.allowed_file (App.filename file)) eqn:Hext.
        * rewrite (Hrun m p eq_refl eq_refl Hne eq_refl). simpl. eauto.
        * unfold App.predict. rewrite Hm, Hp, Hfile.
          destruct (String.eqb_spec (App.filename file) "") as [|_]; [contradiction|].
          rewrite Hext. simpl. eauto.
    - unfold App.predict. rewrite Hm, Hp. simpl. eauto.
    - unfold App.predict. rewrite Hm. simpl. eauto. }
  destruct Hany as [Hcalls Hmsg]. split; [exact Hcalls|]. split; [exact Hmsg|].
  intros [m Hm] [p Hp] Hname Hext. exact (Hrun m p Hm Hp Hname Hext).
Qed.

Lemma undecodable_bytes_rejected_witness :
  calls (snd (App.predict (Demo.libs (ok [Demo.tied_scores]) (ok []))
                Demo.loaded (Demo.upload [Byte.x00]) Demo.world_0)) = [] /\
  exists msg status,
    fst (App.predict (Demo.libs (ok [Demo.tied_scores]) (ok []))
           Demo.loaded (Demo.upload [Byte.x00]) Demo.world_0)
    = inr (App.ErrorPayload msg, status).
Proof.
  pose proof (undecodable_bytes_rejected
    (Demo.libs (ok [Demo.tied_scores]) (ok []))
    Demo.loaded (Demo.upload [Byte.x00])
    {| App.filename := "lesion.PNG"; App.stream := [Byte.x00] |} Demo.world_0) as H.
  destruct H as (_ & _ & Hcalls & Hmsg & _).
  - vm_compute. reflexivity.
  - vm_compute. reflexivity.
  - split; [exact Hcalls|exact Hmsg].
Defined.

(** ** utils.py: [preprocess] *)

Lemma lookup_map {A B} (f : A -> B) (l : list A) (i : nat) :
  map f l !! i = f <$> (l !! i).
Proof.
  revert i. induction l as [|x l IH]; intros [|i]; simpl; try reflexivity.
  apply IH.
Qed.

Section Shapes.
Context {A B : Type}.

Lemma has_shape_map3 (f : A -> B) (a : ndarray3 A) (h w c : nat) :
  has_shape a h w c -> has_shape (map3 f a) h w c.
Proof.
  unfold has_shape, map3. intros [Hlen Hrows]. split.
  - rewrite length_map. exact Hlen.
  - apply Forall_map. eapply Forall_impl; [exact Hrows|].
    intros row [Hw Hpx]. simpl. split.
    + rewrite length_map. exact Hw.
    + apply Forall_map. eapply Forall_impl; [exact Hpx|].
      intros px Hc. simpl. rewrite length_map. exact Hc.
Qed.

Lemma has_shape_map_pixels (f : list A -> list B) (a : ndarray3 A) (h w c c' : nat) :
  (forall px, length px = c -> length (f px) = c') ->
  has_shape a h w c -> has_shape (map (map f) a) h w c'.
Proof.
  unfold has_shape. intros Hf [Hlen Hrows]. split.
  - rewrite length_map. exact Hlen.
  - apply Forall_map. eapply Forall_impl; [exact Hrows|].
    intros row [Hw Hpx]. simpl. split.
    + rewrite length_map. exact Hw.
    + apply Forall_map. eapply Forall_impl; [exact Hpx|].
      intros px Hc. simpl. apply Hf. exact Hc.
Qed.

Lemma entry_map_pixels (f : list A -> list B) (a : ndarray3 A) (r c ch : nat) :
  entry (map (map f) a) r c ch =
  match a !! r with
  | Some row => match row !! c with
                | Some px => f px !! ch
                | None => None
                end
  | None => None
  end.
Proof.
  unfold entry. rewrite lookup_map.
  destruct (a !! r) as [row|]; simpl; [|reflexivity].
  rewrite lookup_map. destruct (row !! c); reflexivity.
Qed.

End Shapes.

Lemma GRAY2RGB_shape (g : ndarray2 uint8) (h w : nat) :
  has_shape2 g h w -> has_shape (Utils.GRAY2RGB g) h w 3.
Proof.
  unfold has_shape2, has_shape, Utils.GRAY2RGB. intros [Hlen Hrows]. split.
  - rewrite length_map. exact Hlen.
  - apply Forall_map. eapply Forall_impl; [exact Hrows|].
    intros row Hw. simpl. split.
    + rewrite length_map. exact Hw.
    + apply Forall_map. apply Forall_forall. intros v _. reflexivity.
Qed.

Lemma update_channel_in_range {A} (i c : nat) (f : A -> A) (a : ndarray3 A) (h w : nat) :
  (i < c)%nat -> has_shape a h w c ->
  update_channel i f a = ok (map (map (fun px => alter f i px)) a).
Proof.
  intros Hi [_ Hrows]. unfold update_channel.
  replace (forallb (forallb (fun px : list A => (i <? length px)%nat)) a) with true;
    [reflexivity|].
  symmetry. apply forallb_forall. intros row Hrow.
  rewrite Forall_forall in Hrows. apply list_elem_of_In in Hrow.
  destruct (Hrows row Hrow) as [_ Hpx].
  apply forallb_forall. intros px Hin. apply list_elem_of_In in Hin.
  rewrite Forall_forall in Hpx. rewrite (Hpx px Hin).
  apply Nat.ltb_lt. exact Hi.
Qed.

Lemma standardize_loop (a : ndarray3 spec_float) (h w : nat) :
  has_shape a h w 3 ->
  for_each (Utils.standardize_channel Utils.init) (seq 0 3) a
  = ok (map (map (standardize_pixel Utils.init)) a).
Proof.
  intros Ha.
  assert (Hstep : forall (i : nat) m s b,
    (i < 3)%nat -> has_shape b h w 3 ->
    py_getitem (Utils.mean Utils.init) (Z.of_nat i) = ok m ->
    py_getitem (Utils.std Utils.init) (Z.of_nat i) = ok s ->
    Utils.standardize_channel Utils.init b i
    = ok (map (map (fun px => alter (Utils.standardize_value m s) i px)) b)).
  { intros i m s b Hi Hb Hm Hs. unfold Utils.standardize_channel.
    rewrite Hm, Hs. simpl. apply (update_channel_in_range i 3 _ b h w Hi Hb). }
  assert (Halter : forall (i : nat) (f : spec_float -> spec_float) b,
    has_shape b h w 3 -> has_shape (map (map (fun px => alter f i px)) b) h w 3).
  { intros i f b Hb. apply (has_shape_map_pixels _ b h w 3 3); [|exact Hb].
    intros px Hpx. rewrite length_alter. exact Hpx. }
  change (seq 0 3) with [0%nat; 1%nat; 2%nat]. cbn [for_each].
  erewrite (Hstep 0%nat); [|lia|exact Ha|reflexivity|reflexivity]. cbn [rbind ok].
  erewrite (Hstep 1%nat); [|lia|apply Halter; exact Ha|reflexivity|reflexivity].
  cbn [rbind ok].
  erewrite (Hstep 2%nat);
    [|lia|apply Halter; apply Halter; exact Ha|reflexivity|reflexivity].
  cbn [rbind ok]. f_equal.
  rewrite !map_map. apply map_ext. intros row.
  rewrite !map_map. apply map_ext. intros px. reflexivity.
Qed.

Lemma standardize_pixel_init (x0 x1 x2 : spec_float) :
  standardize_pixel Utils.init [x0; x1; x2]
  = [Utils.standardize_value (Float.literal 485 1000) (Float.literal 229 1000) x0;
     Utils.standardize_value (Float.literal 456 1000) (Float.literal 224 1000) x1;
     Utils.standardize_value (Float.literal 406 1000) (Float.literal 225 1000) x2].
Proof. reflexivity. Qed.

(** The standardized value of every 8-bit intensity is a finite float32, for
    each of the three channels. *)
Lemma standardized_intensity_finite (v : Byte.byte) :
  Float.is_finite (Utils.standardize_value (Float.literal 485 1000) (Float.literal 229 1000)
                     (Utils.scale_value v)) = true /\
  Float.is_finite (Utils.standardize_value (Float.literal 456 1000) (Float.literal 224 1000)
                     (Utils.scale_value v)) = true /\
  Float.is_finite (Utils.standardize_value (Float.literal 406 1000) (Float.literal 225 1000)
                     (Utils.scale_value v)) = true.
Proof. destruct v; vm_compute; repeat split. Qed.

Lemma length_3_inv {A} (l : list A) :
  length l = 3%nat -> exists a b c, l = [a; b; c].
Proof.
  destruct l as [|a [|b [|c [|d l]]]]; simpl; intros H; try discriminate.
  exists a, b, c. reflexivity.
Qed.

(** What [preprocess] returns on an array of 8-bit pixels of three channels
    that came out of the resize. *)
Lemma standardized_scaled_pixels (resized : ndarray3 Byte.byte) (h w : nat) :
  has_shape resized h w 3 ->
  let t := map (map (standardize_pixel Utils.init)) (Utils.scale resized) in
  has_shape t h w 3 /\
  all_finite t /\
  (forall r c ch v, entry resized r c ch = Some v ->
     exists m s, Utils.mean Utils.init !! ch = Some m /\
                 Utils.std Utils.init !! ch = Some s /\
                 entry t r c ch
                 = Some (Utils.standardize_value m s (Utils.scale_value v))).
Proof.
  intros Hres t. subst t. unfold Utils.scale, map3.
  assert (Hpix : forall px, length px = 3%nat ->
    exists a b c, px = [a; b; c] /\
      standardize_pixel Utils.init (map Utils.scale_value px)
      = [Utils.standardize_value (Float.literal 485 1000) (Float.literal 229 1000)
           (Utils.scale_value a);
         Utils.standardize_value (Float.literal 456 1000) (Float.literal 224 1000)
           (Utils.scale_value b);
         Utils.standardize_value (Float.literal 406 1000) (Float.literal 225 1000)
           (Utils.scale_value c)]).
  { intros px Hpx. destruct (length_3_inv px Hpx) as (a & b & c & ->).
    exists a, b, c. split; [reflexivity|]. apply standardize_pixel_init. }
  assert (Ht : map (map (standardize_pixel Utils.init))
                 (map (map (map Utils.scale_value)) resized)
               = map (map (fun px => standardize_pixel Utils.init (map Utils.scale_value px)))
                   resized).
  { rewrite map_map. apply map_ext. intros row. rewrite map_map. reflexivity. }
  rewrite Ht. clear Ht.
  split; [|split].
  - apply (has_shape_map_pixels _ resized h w 3 3); [|exact Hres].
    intros px Hpx. destruct (Hpix px Hpx) as (a & b & c & _ & ->). reflexivity.
  - destruct Hres as [_ Hrows]. unfold all_finite.
    apply Forall_map. eapply Forall_impl; [exact Hrows|].
    intros row [_ Hpx]. simpl.
    apply Forall_map. eapply Forall_impl; [exact Hpx|].
    intros px Hlen. simpl. destruct (Hpix px Hlen) as (a & b & c & _ & ->).
    destruct (standardized_intensity_finite a) as (Ha & _ & _).
    destruct (standardized_intensity_finite b) as (_ & Hb & _).
    destruct (standardized_intensity_finite c) as (_ & _ & Hc).
    repeat constructor; assumption.
  - intros r c ch v Hv. rewrite entry_map_pixels. unfold entry in Hv.
    destruct Hres as [_ Hrows]. rewrite Forall_forall in Hrows.
    destruct (resized !! r) as [row|] eqn:Hrow; [|discriminate].
    destruct (Hrows row) as [_ Hpx]; [eapply list_elem_of_lookup_2; exact Hrow|].
    destruct (row !! c) as [px|] eqn:Hc; [|discriminate].
    rewrite Forall_forall in Hpx.
    destruct (Hpix px) as (x0 & x1 & x2 & -> & ->);
      [apply Hpx; eapply list_elem_of_lookup_2; exact Hc|].
    destruct ch as [|[|[|ch]]]; simpl in Hv; try discriminate;
      injection Hv as <-; eexists; eexists; (split; [reflexivity|]);
      (split; [reflexivity|]); reflexivity.
Qed.

(** The array the decoded image has become when the float conversion starts. *)
Lemma resized_shape (L : Libs) (buf : list Byte.byte) (img : ndarray3 Byte.byte) :
  cv2_contract L ->
  cv2_imdecode L buf = DecodeImage img ->
  has_shape
    (cv2_resize L (Utils.GRAY2RGB (cv2_equalizeHist L (cv2_BGR2GRAY L img)))
       (Utils.target_size Utils.init))
    224 224 3.
Proof.
  intros HL Hdec.
  destruct (imdecode_shape L HL buf img Hdec) as (h & w & Hh & Hw & Himg).
  apply (resize_shape L HL _ h w 3 224%nat 224%nat Hh Hw).
  apply GRAY2RGB_shape. apply (equalizeHist_shape L HL).
  apply (BGR2GRAY_shape L HL). exact Himg.
Qed.

Lemma preprocess_decoded (L : Libs) (buf : list Byte.byte) (img : ndarray3 Byte.byte) :
  cv2_contract L ->
  cv2_imdecode L buf = DecodeImage img ->
  Utils.preprocess L Utils.init buf
  = Some (map (map (standardize_pixel Utils.init))
            (Utils.scale
               (cv2_resize L (Utils.GRAY2RGB (cv2_equalizeHist L (cv2_BGR2GRAY L img)))
                  (224%nat, 224%nat)))).
Proof.
  intros HL Hdec. unfold Utils.preprocess. apply catch_none_Some.
  unfold Utils.preprocess_body. rewrite Hdec. cbn [rbind ok].
  apply (standardize_loop _ 224 224).
  apply has_shape_map3. apply (resized_shape L buf img HL Hdec).
Qed.

(** C1: when the bytes decode, [preprocess] returns a tensor; that tensor is
    obtained from the decoded pixel grid by the grayscale conversion, the
    histogram equalization, the replication of the equalized channel into
    three identical ones (the pixel at row [r] and column [c] becomes
    [[v; v; v]] for the equalized value [v] at [r], [c]), the resize to
    224 x 224, the division of the 8-bit values by 255 and the standardization
    [(x - mean[ch]) / std[ch]] with means 0.485, 0.456, 0.406 and deviations
    0.229, 0.224, 0.225, in this order; its shape is 224 x 224 x 3 and all its
    entries are finite.  Every entry of the tensor is given in terms of the
    resized replicated image, so that the tensor is determined by the
    equalized image and the resize. *)
Theorem preprocess_pipeline (L : Libs) (buf : list Byte.byte) (img : ndarray3 Byte.byte) :
  cv2_contract L ->
  cv2_imdecode L buf = DecodeImage img ->
  let gray := cv2_BGR2GRAY L img in
  let equalized := cv2_equalizeHist L gray in
  let rgb := map (map (fun v : uint8 => [v; v; v])) equalized in
  let resized := cv2_resize L rgb (224%nat, 224%nat) in
  exists t,
    Utils.preprocess L Utils.init buf = Some t /\
    has_shape t 224 224 3 /\
    has_shape resized 224 224 3 /\
    all_finite t /\
    Utils.mean Utils.init
    = [Float.literal 485 1000; Float.literal 456 1000; Float.literal 406 1000] /\
    Utils.std Utils.init
    = [Float.literal 229 1000; Float.literal 224 1000; Float.literal 225 1000] /\
    (forall r c ch v, entry resized r c ch = Some v ->
       exists m s, Utils.mean Utils.init !! ch = Some m /\
                   Utils.std Utils.init !! ch = Some s /\
                   entry t r c ch
                   = Some (Float.div32
                             (Float.sub32
                                (Float.div32 (Float.f32_of_Z (uint8_to_Z v))
                                   (Float.to_f32 (Float.literal 255 1)))
                                (Float.to_f32 m))
                             (Float.to_f32 s))).
Proof.
  intros HL Hdec gray equalized rgb resized.
  pose proof (resized_shape L buf img HL Hdec) as Hshape.
  destruct (standardized_scaled_pixels _ 224 224 Hshape) as (Ht & Hfin & Hval).
  eexists. split; [apply (preprocess_decoded L buf img HL Hdec)|].
  split; [exact Ht|]. split; [exact Hshape|]. split; [exact Hfin|].
  split; [reflexivity|]. split; [reflexivity|].
  exact Hval.
Qed.

Lemma demo_cv2_contract scores cam : cv2_contract (Demo.libs scores cam).
Proof.
  split; simpl.
  - intros b img. unfold Demo.imdecode. destruct b as [|x b]; [discriminate|].
    destruct (Byte.eqb x Byte.x00); [discriminate|].
    intros [= <-]. exists 1%nat, 1%nat. repeat split; try lia.
    repeat constructor.
  - intros img h w [Hlen Hrows]. unfold Demo.BGR2GRAY. split.
    + rewrite length_map. exact Hlen.
    + apply Forall_map. eapply Forall_impl; [exact Hrows|].
      intros row [Hw _]. simpl. rewrite length_map. exact Hw.
  - intros g h w Hg. exact Hg.
  - intros img h0 w0 c w h Hh Hw [Hlen Hrows]. unfold Demo.resize. simpl. split.
    + apply repeat_length.
    + assert (Hpx : length (Demo.first_pixel img) = c).
      { destruct img as [|row img]; [simpl in Hlen; lia|].
        apply Forall_cons in Hrows as [[Hrw Hpx] _].
        destruct row as [|px row]; [simpl in Hrw; lia|].
        apply Forall_cons in Hpx as [Hpx _]. exact Hpx. }
      apply Forall_forall. intros row Hrow. apply list_elem_of_In in Hrow.
      apply repeat_spec in Hrow. subst row. split; [apply repeat_length|].
      apply Forall_forall. intros px Hin. apply list_elem_of_In in Hin.
      apply repeat_spec in Hin. subst px. exact Hpx.
Qed.

Lemma preprocess_pipeline_witness :
  exists t,
    Utils.preprocess (Demo.libs (ok [Demo.tied_scores]) (ok [])) Utils.init [Byte.x2a] = Some t /\
    has_shape t 224 224 3 /\
    all_finite t.
Proof.
  destruct (preprocess_pipeline (Demo.libs (ok [Demo.tied_scores]) (ok []))
              [Byte.x2a] [[[Byte.x2a; Byte.x2a; Byte.x2a]]])
    as (t & Hpre & Hshape & _ & Hfin & _).
  - apply demo_cv2_contract.
  - reflexivity.
  - exists t. split; [exact Hpre|]. split; [exact Hshape|exact Hfin].
Defined.

(** ** The registry of class records *)

Lemma preserves_of_keeps {A} (c : prog A) : keeps_registry c -> preserves_registry c.
Proof. intros Hc w Hw. rewrite Hc. exact Hw. Qed.

Lemma preserves_bind {A B} (c : prog A) (k : A -> prog B) :
  preserves_registry c -> (forall a, preserves_registry (k a)) ->
  preserves_registry (pbind c k).
Proof.
  intros Hc Hk w Hw. unfold pbind. specialize (Hc w Hw).
  destruct (c w) as [[e|a] w1]; simpl in *; [assumption|].
  apply Hk. assumption.
Qed.

Lemma preserves_try {A} (c : prog A) (h : exn -> prog A) :
  preserves_registry c -> (forall e, preserves_registry (h e)) ->
  preserves_registry (try_except c h).
Proof.
  intros Hc Hh w Hw. unfold try_except. specialize (Hc w Hw).
  destruct (c w) as [[e|a] w1]; simpl in *; [|assumption].
  apply Hh. assumption.
Qed.

Ltac keeps_registry_step :=
  first
    [ apply keeps_registry_ret
    | apply keeps_registry_lift
    | apply keeps_registry_throw
    | apply keeps_registry_record_call
    | apply keeps_registry_bind; [|intros ?]
    | apply keeps_registry_try; [|intros ?]
    | match goal with
      | |- keeps_registry (let '(_, _) := ?a in _) => destruct a
      end ].

Lemma predict_keeps_registry (L : Libs) (self : ModelLoader.SkinCancerModel)
    (img : ndarray3 spec_float) :
  keeps_registry (ModelLoader.predict L self img).
Proof.
  unfold ModelLoader.predict, ModelLoader.predict_body.
  repeat keeps_registry_step.
Qed.

Lemma generate_gradcam_keeps_registry (L : Libs) (self : ModelLoader.SkinCancerModel)
    (img : ndarray3 spec_float) (c : Z) :
  keeps_registry (ModelLoader.generate_gradcam L self img c).
Proof.
  unfold ModelLoader.generate_gradcam, ModelLoader.generate_gradcam_body.
  repeat keeps_registry_step.
Qed.

(** The keys of the registry built by [__init__] are 0..6, and each has a
    display name. *)
Lemma class_info_0_Some (i : Z) (r0 : gmap string string) :
  ModelLoader.class_info_0 !! i = Some r0 ->
  0 <= i < 7 /\
  exists n, nth_error ModelLoader.class_names_0 (Z.to_nat i) = Some n /\
            py_getitem ModelLoader.class_names_0 i = ok n.
Proof.
  unfold ModelLoader.class_info_0. intros H.
  apply elem_of_list_to_map_2 in H.
  repeat (apply elem_of_cons in H as [H|H];
          [injection H as -> _; split; [lia|]; eexists; split; reflexivity|]).
  apply elem_of_nil in H. contradiction.
Qed.

Lemma class_info_0_keys : NoDup [0; 1; 2; 3; 4; 5; 6].
Proof.
  repeat (apply NoDup_cons; split;
          [rewrite ?elem_of_cons, elem_of_nil; intros H;
           repeat (destruct H as [H|H]; [discriminate|]); exact H|]).
  apply NoDup_nil_2.
Qed.

Lemma class_info_0_in_range (i : Z) :
  0 <= i < 7 -> exists r0, ModelLoader.class_info_0 !! i = Some r0.
Proof.
  intros Hi.
  assert (Hc : i = 0 \/ i = 1 \/ i = 2 \/ i = 3 \/ i = 4 \/ i = 5 \/ i = 6) by lia.
  unfold ModelLoader.class_info_0.
  destruct Hc as [->|[->|[->|[->|[->|[->| ->]]]]]];
    eexists; (apply elem_of_list_to_map_1; [exact class_info_0_keys|]);
    rewrite ?elem_of_cons; eauto 10.
Qed.

Lemma class_info_0_None (i : Z) :
  ModelLoader.class_info_0 !! i = None <-> ~ (0 <= i < 7).
Proof.
  split.
  - intros H Hi. destruct (class_info_0_in_range i Hi) as [r0 Hr0]. congruence.
  - intros Hi. destruct (ModelLoader.class_info_0 !! i) as [r0|] eqn:E; [|reflexivity].
    apply class_info_0_Some in E as [E _]. contradiction.
Qed.

(** What the lookup of a class record does to a registry the service can
    hold. *)
Lemma get_class_info_run (self : ModelLoader.SkinCancerModel) (i : Z) (w : world) :
  ModelLoader.class_names self = ModelLoader.class_names_0 ->
  registry_ok (class_info w) ->
  match ModelLoader.class_info_0 !! i with
  | Some r0 =>
      exists n, nth_error ModelLoader.class_names_0 (Z.to_nat i) = Some n /\
        ModelLoader.get_class_info self i w
        = (inr (Some (<["full_name" := n]> r0)),
           World (<[i := <["full_name" := n]> r0]> (class_info w)) (calls w))
  | None => ModelLoader.get_class_info self i w = (inr None, w)
  end.
Proof.
  intros Hnames Hok. specialize (Hok i).
  unfold ModelLoader.get_class_info, pbind, read_class_info, ok. cbv beta iota.
  destruct (ModelLoader.class_info_0 !! i) as [r0|] eqn:E0.
  - destruct (class_info_0_Some i r0 E0) as (_ & n & Hn & Hget).
    exists n. split; [exact Hn|].
    rewrite Hnames, Hget.
    destruct Hok as [Hd|(n' & Hn' & Hd)]; rewrite Hd; simpl.
    + reflexivity.
    + rewrite insert_insert_eq. reflexivity.
  - rewrite Hok. reflexivity.
Qed.

Lemma get_class_info_preserves (self : ModelLoader.SkinCancerModel) (i : Z) :
  ModelLoader.class_names self = ModelLoader.class_names_0 ->
  preserves_registry (ModelLoader.get_class_info self i).
Proof.
  intros Hnames w Hok.
  pose proof (get_class_info_run self i w Hnames Hok) as Hrun.
  destruct (ModelLoader.class_info_0 !! i) as [r0|] eqn:E0.
  - destruct Hrun as (n & Hn & ->). simpl. intros j.
    destruct (decide (i = j)) as [<-|Hne].
    + rewrite E0, lookup_insert_eq. right. exists n. split; [exact Hn|reflexivity].
    + rewrite lookup_insert_ne by exact Hne. apply Hok.
  - rewrite Hrun. exact Hok.
Qed.

Lemma registry_ok_records (d : gmap Z (gmap string string)) :
  registry_ok d ->
  (forall i, d !! i = None <-> ~ (0 <= i < 7)) /\
  (forall i r, d !! i = Some r -> is_record_of i r).
Proof.
  intros Hok. split.
  - intros i. rewrite <- class_info_0_None. specialize (Hok i).
    destruct (ModelLoader.class_info_0 !! i) as [r0|].
    + destruct Hok as [Hd|(n & _ & Hd)]; rewrite Hd; split; discriminate.
    + rewrite Hok. split; reflexivity.
  - intros i r Hr. specialize (Hok i). unfold is_record_of.
    destruct (ModelLoader.class_info_0 !! i) as [r0|]; [|congruence].
    exists r0. split; [reflexivity|].
    destruct Hok as [Hd|(n & _ & Hd)]; rewrite Hd in Hr; injection Hr as <-.
    + reflexivity.
    + intros k Hk. apply lookup_insert_ne. intros <-.
      unfold authored_fields in Hk.
      repeat (apply elem_of_cons in Hk as [Hk|Hk]; [discriminate|]).
      apply elem_of_nil in Hk. contradiction.
Qed.

Lemma registry_ok_init : registry_ok ModelLoader.class_info_0.
Proof.
  intros i. destruct (ModelLoader.class_info_0 !! i); [left|]; reflexivity.
Qed.

(** C6: on a loaded service, the metadata query answers an index in 0..6
    with status 200 and that class's record (its six authored fields are
    those of the registry built at start-up), and any other index with the
    error "Invalid class ID" and status 404, leaving the state untouched: an
    index out of range never yields a record or an empty answer. *)
Theorem class_info_query (g : App.globals) (m : ModelLoader.SkinCancerModel)
    (i : Z) (w : world) :
  App.model g = Some m ->
  ModelLoader.class_names m = ModelLoader.class_names_0 ->
  registry_ok (class_info w) ->
  (0 <= i < 7 ->
   exists r, fst (App.get_class_info g i w) = inr (App.InfoPayload (Some r), 200) /\
             is_record_of i r) /\
  (~ (0 <= i < 7) ->
   App.get_class_info g i w = (inr (App.ErrorPayload "Invalid class ID", 404), w)).
Proof.
  intros Hm Hnames Hok. unfold App.get_class_info. rewrite Hm, Hnames.
  change (Z.of_nat (length ModelLoader.class_names_0)) with 7.
  split.
  - intros Hi.
    replace (Z.leb 0 i && Z.ltb i 7) with true
      by (symmetry; apply andb_true_iff; split; [apply Z.leb_le|apply Z.ltb_lt]; lia).
    pose proof (get_class_info_run m i w Hnames Hok) as Hrun.
    destruct (class_info_0_in_range i Hi) as [r0 Hr0]. rewrite Hr0 in Hrun.
    destruct Hrun as (n & Hn & Hrun). unfold pbind. rewrite Hrun. simpl.
    eexists. split; [reflexivity|].
    destruct (registry_ok_records _ (get_class_info_preserves m i Hnames w Hok))
      as [_ Hrec].
    apply (Hrec i). rewrite Hrun. simpl. apply lookup_insert_eq.
  - intros Hi.
    replace (Z.leb 0 i && Z.ltb i 7) with false; [reflexivity|].
    symmetry. apply andb_false_iff.
    destruct (Z.leb_spec 0 i); [right; apply Z.ltb_ge; lia|left; reflexivity].
Qed.

Lemma class_info_query_witness :
  (exists r, fst (App.get_class_info Demo.loaded 6 Demo.world_0)
             = inr (App.InfoPayload (Some r), 200) /\ is_record_of 6 r) /\
  App.get_class_info Demo.loaded 7 Demo.world_0
  = (inr (App.ErrorPayload "Invalid class ID", 404), Demo.world_0).
Proof.
  split.
  - apply (class_info_query Demo.loaded _ 6 Demo.world_0 eq_refl eq_refl registry_ok_init).
    lia.
  - apply (class_info_query Demo.loaded _ 7 Demo.world_0 eq_refl eq_refl registry_ok_init).
    lia.
Defined.

Lemma predict_view_preserves (L : Libs) (g : App.globals) (req : App.request) :
  (forall m, App.model g = Some m ->
             ModelLoader.class_names m = ModelLoader.class_names_0) ->
  preserves_registry (App.predict L g req).
Proof.
  intros Hg. unfold App.predict.
  destruct (App.model g) as [m|];
    [|apply preserves_of_keeps, keeps_registry_ret].
  specialize (Hg m eq_refl).
  destruct (App.preprocessor g) as [p|];
    [|apply preserves_of_keeps, keeps_registry_ret].
  destruct (App.files req !! "file") as [file|];
    [|apply preserves_of_keeps, keeps_registry_ret].
  destruct (String.eqb (App.filename file) "");
    [apply preserves_of_keeps, keeps_registry_ret|].
  destruct (negb (App.allowed_file (App.filename file)));
    [apply preserves_of_keeps, keeps_registry_ret|].
  apply preserves_try; [|intros e; apply preserves_of_keeps, keeps_registry_ret].
  destruct (Utils.preprocess L p (App.stream file)) as [img|];
    [|apply preserves_of_keeps, keeps_registry_ret].
  apply preserves_bind; [apply preserves_of_keeps, predict_keeps_registry|].
  intros [[pc conf] probs].
  destruct pc as [pc|]; [|apply preserves_of_keeps, keeps_registry_ret].
  apply preserves_bind; [apply preserves_of_keeps, generate_gradcam_keeps_registry|].
  intros heatmap.
  apply preserves_bind; [apply get_class_info_preserves; exact Hg|].
  intros info. apply preserves_of_keeps. repeat keeps_registry_step.
Qed.

Lemma serve_preserves_registry (L : Libs) (g : App.globals) (op : App.operation) :
  (forall m, App.model g = Some m ->
             ModelLoader.class_names m = ModelLoader.class_names_0) ->
  preserves_registry (App.serve L g op).
Proof.
  intros Hg w Hok. destruct op as [req|class_id|]; simpl.
  - apply (predict_view_preserves L g req Hg w Hok).
  - unfold App.get_class_info.
    destruct (App.model g) as [m|] eqn:Hm; [|exact Hok].
    destruct (Z.leb 0 class_id && Z.ltb class_id _); [|exact Hok].
    revert w Hok. apply preserves_bind.
    + apply get_class_info_preserves. apply Hg. reflexivity.
    + intros info. apply preserves_of_keeps, keeps_registry_ret.
  - exact Hok.
Qed.

Lemma serve_all_preserves_registry (L : Libs) (g : App.globals)
    (ops : list App.operation) (w : world) :
  (forall m, App.model g = Some m ->
             ModelLoader.class_names m = ModelLoader.class_names_0) ->
  registry_ok (class_info w) ->
  registry_ok (class_info (serve_all L g ops w)).
Proof.
  intros Hg. revert w. induction ops as [|op ops IH]; intros w Hok; simpl.
  - exact Hok.
  - apply IH. apply (serve_preserves_registry L g op Hg w Hok).
Qed.

(** The two outcomes of the initialisation. *)
Lemma startup_cases (L : Libs) (w0 : world) :
  App.startup L w0
  = (inr {| App.model := Some {| ModelLoader.class_names := ModelLoader.class_names_0 |};
            App.preprocessor := Some Utils.init |},
     World ModelLoader.class_info_0 (calls w0)) \/
  App.startup L w0 = (inr {| App.model := None; App.preprocessor := None |}, w0).
Proof.
  unfold App.startup, ModelLoader.init, try_except, pbind, lift, write_class_info, ret.
  cbv beta iota. destruct (keras_load_model L _) as [e|[]]; [right|left]; reflexivity.
Qed.

(** C8, as the code has it: the registry is built once, by the
    initialisation of the model object; from then on, whatever operations the
    service handles, no record is added or removed and none of the six
    authored fields of a record changes; the only write is the one of the
    record lookup, which stores the display name of the class under
    ["full_name"] in the record it returns. *)
Theorem registry_gains_only_full_name (L : Libs) (w0 w1 : world) (g : App.globals)
    (ops : list App.operation) :
  App.startup L w0 = (inr g, w1) ->
  is_Some (App.model g) ->
  class_info w1 = ModelLoader.class_info_0 /\
  let d := class_info (serve_all L g ops w1) in
  registry_ok d /\
  (forall i, d !! i = None <-> ~ (0 <= i < 7)) /\
  (forall i r, d !! i = Some r -> is_record_of i r).
Proof.
  intros Hstart [m Hm].
  destruct (startup_cases L w0) as [Hs|Hs]; rewrite Hs in Hstart;
    injection Hstart as <- <-; [|discriminate].
  split; [reflexivity|]. intros d.
  assert (Hd : registry_ok d).
  { apply serve_all_preserves_registry.
    - intros m' [= <-]. reflexivity.
    - exact registry_ok_init. }
  split; [exact Hd|]. apply registry_ok_records. exact Hd.
Qed.

Lemma registry_gains_only_full_name_witness :
  registry_ok
    (class_info
       (serve_all (Demo.libs (ok [Demo.tied_scores]) (ok [])) Demo.loaded
          [App.OpClassInfo 0; App.OpClassInfo 7; App.OpHealth; App.OpClassInfo 0]
          Demo.world_0)).
Proof.
  apply (registry_gains_only_full_name (Demo.libs (ok [Demo.tied_scores]) (ok []))
           (World ∅ []) Demo.world_0 Demo.loaded
           [App.OpClassInfo 0; App.OpClassInfo 7; App.OpHealth; App.OpClassInfo 0]).
  - reflexivity.
  - eexists. reflexivity.
Defined.

(** C8, as stated, fails: the metadata query for class 0 changes the stored
    record of class 0, which has no ["full_name"] before the query and has
    one after it. *)
Lemma registry_mutated_by_query :
  class_info (snd (App.get_class_info Demo.loaded 0 Demo.world_0))
  <> class_info Demo.world_0 /\
  (class_info Demo.world_0 !! 0) ≫= (fun r => r !! "full_name") = None /\
  (class_info (snd (App.get_class_info Demo.loaded 0 Demo.world_0)) !! 0)
    ≫= (fun r => r !! "full_name") = Some "Melanoma (MEL)".
Proof.
  assert (H0 : (class_info Demo.world_0 !! 0) ≫= (fun r => r !! "full_name") = None)
    by (vm_compute; reflexivity).
  assert (H1 : (class_info (snd (App.get_class_info Demo.loaded 0 Demo.world_0)) !! 0)
                 ≫= (fun r => r !! "full_name") = Some "Melanoma (MEL)")
    by (vm_compute; reflexivity).
  split; [|split; assumption].
  intros Heq. rewrite Heq, H0 in H1. discriminate.
Qed.

(** ** model_loader.py: the class index is the stable argmax *)

Lemma leb_key (x y : spec_float) :
  Float.is_nan x = false -> Float.is_nan y = false ->
  (Float.leb x y = true <-> key_le (order_key x) (order_key y)).
Proof.
  unfold Float.leb, SFleb, SFcompare, key_le.
  destruct x as [sx|sx| |sx mx ex], y as [sy|sy| |sy my ey];
    try discriminate; intros _ _;
    try destruct sx; try destruct sy; simpl;
    try (split; [intros _; lia|reflexivity]);
    try (split; [discriminate|lia]).
  - change (Pos.compare_cont Eq mx my) with (Pos.compare mx my).
    destruct (Z.compare_spec ex ey); destruct (Pos.compare_spec mx my); simpl;
      split; try discriminate; try reflexivity; lia.
  - change (Pos.compare_cont Eq mx my) with (Pos.compare mx my).
    destruct (Z.compare_spec ex ey); destruct (Pos.compare_spec mx my); simpl;
      split; try discriminate; try reflexivity; lia.
Qed.

Lemma ltb_key (x y : spec_float) :
  Float.is_nan x = false -> Float.is_nan y = false ->
  (Float.ltb x y = true <-> key_lt (order_key x) (order_key y)).
Proof.
  unfold Float.ltb, SFltb, SFcompare, key_lt.
  destruct x as [sx|sx| |sx mx ex], y as [sy|sy| |sy my ey];
    try discriminate; intros _ _;
    try destruct sx; try destruct sy; simpl;
    try (split; [intros _; lia|reflexivity]);
    try (split; [discriminate|lia]).
  - change (Pos.compare_cont Eq mx my) with (Pos.compare mx my).
    destruct (Z.compare_spec ex ey); destruct (Pos.compare_spec mx my); simpl;
      split; try discriminate; try reflexivity; lia.
  - change (Pos.compare_cont Eq mx my) with (Pos.compare mx my).
    destruct (Z.compare_spec ex ey); destruct (Pos.compare_spec mx my); simpl;
      split; try discriminate; try reflexivity; lia.
Qed.

Lemma key_le_refl (a : Z * (Z * Z)) : key_le a a.
Proof. unfold key_le. lia. Qed.

Lemma key_lt_of_not_le (a b : Z * (Z * Z)) : ~ key_le a b -> key_lt b a.
Proof. unfold key_le, key_lt. lia. Qed.

Lemma key_le_lt_trans (a b c : Z * (Z * Z)) : key_le a b -> key_lt b c -> key_lt a c.
Proof. unfold key_le, key_lt. lia. Qed.

Lemma key_lt_le (a b : Z * (Z * Z)) : key_lt a b -> key_le a b.
Proof. unfold key_le, key_lt. lia. Qed.

Lemma key_lt_le_trans (a b c : Z * (Z * Z)) : key_lt a b -> key_le b c -> key_lt a c.
Proof. unfold key_le, key_lt. lia. Qed.

Lemma key_le_trans (a b c : Z * (Z * Z)) : key_le a b -> key_le b c -> key_le a c.
Proof. unfold key_le. lia. Qed.

Lemma nth_error_lookup {A} (l : list A) (i : nat) : nth_error l i = l !! i.
Proof.
  revert i. induction l as [|x l IH]; intros [|i]; simpl; try reflexivity. apply IH.
Qed.

Lemma py_getitem_nat {A} (l : list A) (i : nat) (x : A) :
  l !! i = Some x -> py_getitem l (Z.of_nat i) = ok x.
Proof.
  intros H. unfold py_getitem.
  destruct (Z.ltb_spec (Z.of_nat i) 0) as [Hneg|_]; [lia|].
  destruct (Z.ltb_spec (Z.of_nat i) 0) as [Hneg|_]; [lia|].
  rewrite Nat2Z.id, nth_error_lookup, H. reflexivity.
Qed.

(** The scan keeps the running maximum: if [mp], at position [idx], is the
    stable maximum of the entries [pre] already seen, the result is the
    stable maximum of all entries. *)
Lemma argmax_scan_stable (xs pre : list spec_float) (mp : spec_float) (idx : nat) :
  Forall (fun x => Float.is_nan x = false) (pre ++ xs)%list ->
  pre !! idx = Some mp ->
  (forall j y, pre !! j = Some y -> key_le (order_key y) (order_key mp)) ->
  (forall j y, (j < idx)%nat -> pre !! j = Some y -> key_lt (order_key y) (order_key mp)) ->
  let i := ModelLoader.argmax_scan mp idx (length pre) xs in
  exists x, (pre ++ xs)%list !! i = Some x /\
    (forall j y, (pre ++ xs)%list !! j = Some y -> key_le (order_key y) (order_key x)) /\
    (forall j y, (j < i)%nat -> (pre ++ xs)%list !! j = Some y ->
                 key_lt (order_key y) (order_key x)).
Proof.
  revert pre mp idx. induction xs as [|x xs IH]; intros pre mp idx Hnan Hmp Hle Hlt.
  - simpl. rewrite app_nil_r. exists mp. auto.
  - simpl.
    assert (Hx : Float.is_nan x = false).
    { rewrite Forall_app in Hnan. destruct Hnan as [_ Hnan].
      apply Forall_cons in Hnan as [Hx _]. exact Hx. }
    assert (Hm : Float.is_nan mp = false).
    { rewrite Forall_app in Hnan. destruct Hnan as [Hnan _].
      rewrite Forall_forall in Hnan. apply Hnan.
      eapply list_elem_of_lookup_2. exact Hmp. }
    assert (Hidx : (idx < length pre)%nat) by (eapply lookup_lt_Some; exact Hmp).
    replace (pre ++ x :: xs)%list with ((pre ++ [x]) ++ xs)%list in *
      by (rewrite <- app_assoc; reflexivity).
    replace (S (length pre)) with (length (pre ++ [x])%list)
      by (rewrite length_app; simpl; lia).
    destruct (Float.leb x mp) eqn:Hcmp; simpl.
    + apply leb_key in Hcmp; [|assumption|assumption].
      apply IH; [exact Hnan| | |].
      * rewrite lookup_app_l by exact Hidx. exact Hmp.
      * intros j y Hj. apply lookup_app_Some in Hj as [Hj|[_ Hj]]; [eauto|].
        apply list_lookup_singleton_Some in Hj as [_ <-]. exact Hcmp.
      * intros j y Hji Hj. apply lookup_app_Some in Hj as [Hj|[Hge _]]; [eauto|lia].
    + rewrite Hx.
      assert (Hgt : key_lt (order_key mp) (order_key x)).
      { apply key_lt_of_not_le. intros Hc.
        apply leb_key in Hc; [|assumption|assumption]. congruence. }
      apply IH; [exact Hnan| | |].
      * rewrite lookup_app_r by lia. rewrite Nat.sub_diag. reflexivity.
      * intros j y Hj. apply lookup_app_Some in Hj as [Hj|[_ Hj]].
        -- apply key_lt_le. eapply key_le_lt_trans; [eapply Hle; exact Hj|exact Hgt].
        -- apply list_lookup_singleton_Some in Hj as [_ <-]. apply key_le_refl.
      * intros j y Hji Hj. apply lookup_app_Some in Hj as [Hj|[Hge _]]; [|lia].
        eapply key_le_lt_trans; [eapply Hle; exact Hj|exact Hgt].
Qed.

Lemma np_argmax_stable (row : list spec_float) :
  row <> [] ->
  Forall (fun x => Float.is_nan x = false) row ->
  exists i, ModelLoader.np_argmax row = ok i /\ stable_argmax row i.
Proof.
  intros Hne Hnan. destruct row as [|x xs]; [contradiction|].
  unfold ModelLoader.np_argmax.
  assert (Hx : Float.is_nan x = false) by (apply Forall_cons in Hnan as [Hx _]; exact Hx).
  rewrite Hx. eexists. split; [reflexivity|].
  destruct (argmax_scan_stable xs [x] x 0 Hnan eq_refl) as (m & Hm & Hle & Hlt).
  - intros [|j] y Hj; [|discriminate]. injection Hj as <-. apply key_le_refl.
  - intros j y Hj. lia.
  - simpl in Hm, Hle, Hlt. unfold stable_argmax.
    assert (Hmn : Float.is_nan m = false).
    { rewrite Forall_forall in Hnan. apply Hnan.
      eapply list_elem_of_lookup_2. exact Hm. }
    exists m. split; [exact Hm|]. split.
    + intros j y Hj. apply leb_key; [|exact Hmn|eapply Hle; exact Hj].
      rewrite Forall_forall in Hnan. apply Hnan.
      eapply list_elem_of_lookup_2. exact Hj.
    + intros j y Hji Hj. apply ltb_key; [|exact Hmn|eapply Hlt; eassumption].
      rewrite Forall_forall in Hnan. apply Hnan.
      eapply list_elem_of_lookup_2. exact Hj.
Qed.

(** The run of the body of [predict] when the forward pass returns one row. *)
Lemma predict_body_run (L : Libs) (self : ModelLoader.SkinCancerModel)
    (img : ndarray3 spec_float) (w : world) (row : list spec_float) (idx : nat)
    (p : spec_float) (probs : dict spec_float) :
  keras_predict L [img] = inr [row] ->
  ModelLoader.np_argmax row = inr idx ->
  py_getitem row (Z.of_nat idx) = inr p ->
  for_each
    (fun (d : dict spec_float) (ip : Z * spec_float) =>
       let (i, prob) := ip in
       let* name := py_getitem (ModelLoader.class_names self) i in
       ok (dict_set d name (Float.mul64 (Float.to_f64 prob) (Float.f64_of_Z 100))))
    (enumerate row) [] = inr probs ->
  ModelLoader.predict_body L self img w
  = (inr (Z.of_nat idx, Float.mul64 (Float.to_f64 p) (Float.f64_of_Z 100), probs),
     World (class_info w) (calls w ++ [CallKerasPredict [img]])).
Proof.
  intros H1 H2 H3 H4.
  unfold ModelLoader.predict_body, pbind, record_call, lift, ret. cbv beta iota.
  rewrite H1. cbv beta iota.
  change (py_getitem [row] 0) with (@inr exn _ row). cbv beta iota.
  rewrite H2. cbv beta iota zeta. rewrite H3. cbv beta iota.
  rewrite H4. reflexivity.
Qed.

Lemma probabilities_loop {V} (f : spec_float -> V) (x0 x1 x2 x3 x4 x5 x6 : spec_float) :
  for_each
    (fun (d : dict V) (ip : Z * spec_float) =>
       let (i, prob) := ip in
       let* name := py_getitem ModelLoader.class_names_0 i in
       ok (dict_set d name (f prob)))
    (enumerate [x0; x1; x2; x3; x4; x5; x6]) []
  = inr [("Melanoma (MEL)", f x0);
         ("Nevus (NV)", f x1);
         ("Basal Cell Carcinoma (BCC)", f x2);
         ("Actinic Keratoses (AKIEC)", f x3);
         ("Benign Keratosis (BKL)", f x4);
         ("Dermatofibroma (DF)", f x5);
         ("Vascular lesions (VASC)", f x6)].
Proof. reflexivity. Qed.

Lemma length_7_inv {A} (l : list A) :
  length l = 7%nat -> exists x0 x1 x2 x3 x4 x5 x6, l = [x0; x1; x2; x3; x4; x5; x6].
Proof.
  destruct l as [|x0 [|x1 [|x2 [|x3 [|x4 [|x5 [|x6 [|x7 l]]]]]]]]; simpl; intros H;
    try discriminate.
  exists x0, x1, x2, x3, x4, x5, x6. reflexivity.
Qed.

Lemma predict_seven_scores (L : Libs) (self : ModelLoader.SkinCancerModel)
    (img : ndarray3 spec_float) (w : world) (row : list spec_float) :
  ModelLoader.class_names self = ModelLoader.class_names_0 ->
  keras_predict L [img] = inr [row] ->
  length row = 7%nat ->
  Forall (fun x => Float.is_nan x = false) row ->
  exists idx p conf probs,
    fst (ModelLoader.predict L self img w)
    = inr (Some (Z.of_nat idx), Some conf, Some probs) /\
    stable_argmax row idx /\
    row !! idx = Some p /\
    conf = Float.mul64 (Float.to_f64 p) (Float.f64_of_Z 100) /\
    probs = percent_map row /\
    map fst probs = ModelLoader.class_names_0 /\
    (forall i name x,
       ModelLoader.class_names_0 !! i = Some name -> row !! i = Some x ->
       dict_get probs name = Some (Float.mul64 (Float.to_f64 x) (Float.f64_of_Z 100))) /\
    (exists name, ModelLoader.class_names_0 !! idx = Some name /\
                  dict_get probs name = Some conf).
Proof.
  intros Hnames Hrow Hlen Hnan.
  destruct (np_argmax_stable row) as (idx & Hidx & Hstable);
    [intros ->; discriminate|exact Hnan|].
  pose proof Hstable as (p & Hp & _).
  destruct (length_7_inv row Hlen) as (x0 & x1 & x2 & x3 & x4 & x5 & x6 & ->).
  set (f := fun x => Float.mul64 (Float.to_f64 x) (Float.f64_of_Z 100)).
  pose proof (probabilities_loop f x0 x1 x2 x3 x4 x5 x6) as Hloop.
  rewrite <- Hnames in Hloop.
  pose proof (predict_body_run L self img w _ idx p _ Hrow Hidx
                (py_getitem_nat _ _ _ Hp) Hloop) as Hbody.
  exists idx, p, (f p). eexists.
  split.
  { unfold ModelLoader.predict, try_except, pbind. rewrite Hbody. reflexivity. }
  split; [exact Hstable|]. split; [exact Hp|]. split; [reflexivity|].
  split; [reflexivity|]. split; [reflexivity|]. split.
  - intros i name x Hi Hx.
    destruct i as [|[|[|[|[|[|[|i]]]]]]]; simpl in Hi, Hx; try discriminate;
      injection Hi as <-; injection Hx as <-; reflexivity.
  - assert (Hlt : (idx < 7)%nat) by (apply lookup_lt_Some in Hp; exact Hp).
    destruct idx as [|[|[|[|[|[|[|idx]]]]]]]; try lia;
      simpl in Hp; injection Hp as <-; eexists; split; reflexivity.
Qed.


(** C2: when the forward pass returns K = 7 scores, none of them a NaN,
    [predict] returns the class index that is the argmax of the scores with
    ties going to the lowest index, the confidence [float(score[index]) * 100],
    and a probability map with exactly one entry per class name, in class
    order, whose value for class [i] is [float(score[i]) * 100]. *)
Theorem classify_argmax (L : Libs) (self : ModelLoader.SkinCancerModel)
    (img : ndarray3 spec_float) (w : world) (row : list spec_float) :
  ModelLoader.class_names self = ModelLoader.class_names_0 ->
  keras_predict L [img] = inr [row] ->
  length row = 7%nat ->
  Forall (fun x => Float.is_nan x = false) row ->
  exists idx p conf probs,
    fst (ModelLoader.predict L self img w)
    = inr (Some (Z.of_nat idx), Some conf, Some probs) /\
    stable_argmax row idx /\
    row !! idx = Some p /\
    conf = Float.mul64 (Float.to_f64 p) (Float.f64_of_Z 100) /\
    map fst probs = ModelLoader.class_names_0 /\
    (forall i name x,
       ModelLoader.class_names_0 !! i = Some name -> row !! i = Some x ->
       dict_get probs name = Some (Float.mul64 (Float.to_f64 x) (Float.f64_of_Z 100))) /\
    (exists name, ModelLoader.class_names_0 !! idx = Some name /\
                  dict_get probs name = Some conf).
Proof.
  intros Hnames Hrow Hlen Hnan.
  destruct (predict_seven_scores L self img w row Hnames Hrow Hlen Hnan)
    as (idx & p & conf & probs & H1 & H2 & H3 & H4 & _ & H5 & H6 & H7).
  exists idx, p, conf, probs. repeat split; assumption.
Qed.

Lemma classify_argmax_witness :
  exists idx p conf probs,
    fst (ModelLoader.predict (Demo.libs (ok [Demo.tied_scores]) (ok []))
           {| ModelLoader.class_names := ModelLoader.class_names_0 |} [] Demo.world_0)
    = inr (Some (Z.of_nat idx), Some conf, Some probs) /\
    stable_argmax Demo.tied_scores idx /\
    Demo.tied_scores !! idx = Some p.
Proof.
  destruct (classify_argmax (Demo.libs (ok [Demo.tied_scores]) (ok []))
              {| ModelLoader.class_names := ModelLoader.class_names_0 |}
              [] Demo.world_0 Demo.tied_scores)
    as (idx & p & conf & probs & H1 & H2 & H3 & _).
  - reflexivity.
  - reflexivity.
  - reflexivity.
  - repeat constructor.
  - exists idx, p, conf, probs. split; [exact H1|]. split; [exact H2|exact H3].
Defined.

(** ** app.py: a failed explanation *)

Lemma argmax_scan_lt (xs : list spec_float) (mp : spec_float) (idx i : nat) :
  (idx < i)%nat -> (ModelLoader.argmax_scan mp idx i xs < i + length xs)%nat.
Proof.
  revert mp idx i. induction xs as [|x xs IH]; intros mp idx i Hi; simpl; [lia|].
  destruct (negb (Float.leb x mp)).
  - destruct (Float.is_nan x); [lia|].
    specialize (IH x i (S i)). lia.
  - specialize (IH mp idx (S i)). lia.
Qed.

Lemma np_argmax_lt (row : list spec_float) (idx : nat) :
  ModelLoader.np_argmax row = inr idx -> (idx < length row)%nat.
Proof.
  unfold ModelLoader.np_argmax. destruct row as [|x xs]; [discriminate|].
  destruct (Float.is_nan x); intros [= <-]; simpl; [lia|].
  pose proof (argmax_scan_lt xs x 0 1). lia.
Qed.

Lemma for_each_ok_elem {A S} (body : S -> A -> result S) (xs : list A) (s s' : S) :
  for_each body xs s = inr s' ->
  forall x, x ∈ xs -> exists s1 s2, body s1 x = inr s2.
Proof.
  revert s. induction xs as [|y xs IH]; intros s Hrun x Hx.
  - apply elem_of_nil in Hx. contradiction.
  - simpl in Hrun. unfold rbind in Hrun.
    destruct (body s y) as [e|s1] eqn:Hy; [discriminate|].
    apply elem_of_cons in Hx as [->|Hx]; [eauto|].
    eapply IH; eassumption.
Qed.

(** A class index that [predict] returns has a display name. *)
Lemma predict_body_class_name (L : Libs) (self : ModelLoader.SkinCancerModel)
    (img : ndarray3 spec_float) (w w' : world) (c : Z) (conf : spec_float)
    (probs : dict spec_float) :
  ModelLoader.predict_body L self img w = (inr (c, conf, probs), w') ->
  exists name, py_getitem (ModelLoader.class_names self) c = inr name.
Proof.
  unfold ModelLoader.predict_body, pbind, record_call, lift, ret. cbv beta iota.
  destruct (keras_predict L [img]) as [e|preds]; [discriminate|]. cbv beta iota.
  destruct (py_getitem preds 0) as [e|row]; [discriminate|]. cbv beta iota.
  destruct (ModelLoader.np_argmax row) as [e|idx] eqn:Hidx; [discriminate|].
  cbv beta iota zeta.
  destruct (py_getitem row (Z.of_nat idx)) as [e|p]; [discriminate|]. cbv beta iota.
  destruct (for_each _ (enumerate row) []) as [e|d] eqn:Hloop; [discriminate|].
  intros [= <- _ _ _].
  apply np_argmax_lt in Hidx. apply lookup_lt_is_Some_2 in Hidx as [x Hx].
  destruct (for_each_ok_elem _ _ _ _ Hloop (Z.of_nat idx, x)) as (s1 & s2 & Hbody).
  - eapply list_elem_of_lookup_2 with (i := idx).
    unfold enumerate. rewrite list_lookup_imap, Hx. reflexivity.
  - simpl in Hbody. unfold rbind in Hbody.
    destruct (py_getitem (ModelLoader.class_names self) (Z.of_nat idx)) as [e|name];
      [discriminate|].
    exists name. reflexivity.
Qed.

Lemma get_class_info_total (self : ModelLoader.SkinCancerModel) (c : Z) (w : world)
    (name : string) :
  py_getitem (ModelLoader.class_names self) c = inr name ->
  exists info w', ModelLoader.get_class_info self c w = (inr info, w') /\
                  calls w' = calls w.
Proof.
  intros Hname. unfold ModelLoader.get_class_info, pbind, read_class_info, ok.
  cbv beta iota. destruct (class_info w !! c) as [info|].
  - rewrite Hname. simpl. eauto.
  - simpl. eauto.
Qed.

(** The response of [predict] is never serialised: its entry ['class'] is a
    NumPy integer. *)
Lemma jsonify_predict_payload (r : App.predict_response) :
  App.jsonify (App.PredictPayload r)
  = inl (Exn "TypeError" "Object of type int64 is not JSON serializable").
Proof. reflexivity. Qed.

(** C9 (the code departs from the claim): when the classification of an
    accepted upload succeeds and the Grad-CAM computation raises,
    [generate_gradcam] returns [None] and the view goes on to build its
    response with the classification output and ['heatmap': None]; but the
    entry ['class'] of that response is the [numpy.int64] that [np.argmax]
    returned, which [jsonify] cannot serialise.  The TypeError is raised
    inside the [try] of the view, whose handler answers the request with the
    error payload and status 500: the classification output is not
    delivered. *)
Theorem explanation_failure_answers_500 (L : Libs) (g : App.globals)
    (m : ModelLoader.SkinCancerModel) (p : Utils.ImagePreprocessor)
    (req : App.request) (file : App.file_storage) (img : ndarray3 spec_float)
    (c : Z) (conf : spec_float) (probs : dict spec_float) (e : exn)
    (w w1 w2 : world) :
  App.model g = Some m ->
  App.preprocessor g = Some p ->
  App.files req !! "file" = Some file ->
  App.filename file <> "" ->
  App.allowed_file (App.filename file) = true ->
  Utils.preprocess L p (App.stream file) = Some img ->
  ModelLoader.predict L m img w = (inr (Some c, Some conf, Some probs), w1) ->
  ModelLoader.generate_gradcam_body L m img c w1 = (inl e, w2) ->
  ModelLoader.generate_gradcam L m img c w1 = (inr None, w2) /\
  exists w3,
    App.predict L g req w
    = (inr (App.ErrorPayload "Object of type int64 is not JSON serializable", 500), w3).
Proof.
  intros Hm Hp Hfile Hname Hext Hpre Hpred Hcam.
  assert (Hgen : ModelLoader.generate_gradcam L m img c w1 = (inr None, w2)).
  { unfold ModelLoader.generate_gradcam, try_except, pbind. rewrite Hcam.
    reflexivity. }
  split; [exact Hgen|].
  destruct (predict_cases L m img w)
    as [(c' & conf' & probs' & w' & Hbody & Hpred')|(e' & w' & _ & Hpred')];
    rewrite Hpred in Hpred'; [|discriminate].
  injection Hpred' as <- <- <- <-.
  destruct (predict_body_class_name L m img w w1 c conf probs Hbody) as [name Hcn].
  destruct (get_class_info_total m c w2 name Hcn) as (info & w3 & Hinfo & _).
  exists w3.
  unfold App.predict. rewrite Hm, Hp, Hfile.
  destruct (String.eqb_spec (App.filename file) "") as [Heq|_]; [contradiction|].
  rewrite Hext. cbn [negb]. unfold try_except at 1. rewrite Hpre.
  unfold pbind at 1. rewrite Hpred.
  unfold pbind at 1. rewrite Hgen.
  unfold pbind at 1. rewrite Hinfo.
  unfold pbind, lift, ret, App.not_none, ok. cbv beta iota zeta. rewrite Hcn.
  cbv beta iota zeta. rewrite jsonify_predict_payload. reflexivity.
Qed.

Lemma demo_predict_tied (cam : result (list (ndarray2 spec_float)))
    (img : ndarray3 spec_float) (w : world) :
  ModelLoader.predict (Demo.libs (ok [Demo.tied_scores]) cam)
    {| ModelLoader.class_names := ModelLoader.class_names_0 |} img w
  = (inr (Some 1,
          Some (S754_finite false 7036874417766400 (-47)),
          Some [("Melanoma (MEL)", S754_zero false);
                ("Nevus (NV)", S754_finite false 7036874417766400 (-47));
                ("Basal Cell Carcinoma (BCC)", S754_zero false);
                ("Actinic Keratoses (AKIEC)", S754_finite false 7036874417766400 (-47));
                ("Benign Keratosis (BKL)", S754_zero false);
                ("Dermatofibroma (DF)", S754_zero false);
                ("Vascular lesions (VASC)", S754_zero false)]),
     World (class_info w) (calls w ++ [CallKerasPredict [img]])).
Proof. vm_compute. reflexivity. Qed.

Lemma demo_gradcam_raises (scores : result (ndarray2 spec_float)) (e : exn)
    (self : ModelLoader.SkinCancerModel) (img : ndarray3 spec_float) (c : Z) (w : world) :
  ModelLoader.generate_gradcam_body (Demo.libs scores (raise e)) self img c w
  = (inl e, World (class_info w) (calls w ++ [CallGradcam [img] c])).
Proof. reflexivity. Qed.

Lemma explanation_failure_answers_500_witness :
  exists w3,
    App.predict
      (Demo.libs (ok [Demo.tied_scores])
         (raise (Exn "TypeError"
                   "__call__() got an unexpected keyword argument 'model_modifier'")))
      Demo.loaded (Demo.upload [Byte.x2a]) Demo.world_0
    = (inr (App.ErrorPayload "Object of type int64 is not JSON serializable", 500), w3).
Proof.
  edestruct (explanation_failure_answers_500
              (Demo.libs (ok [Demo.tied_scores])
                 (raise (Exn "TypeError"
                           "__call__() got an unexpected keyword argument 'model_modifier'")))
              Demo.loaded
              {| ModelLoader.class_names := ModelLoader.class_names_0 |}
              Utils.init
              (Demo.upload [Byte.x2a])
              {| App.filename := "lesion.PNG"; App.stream := [Byte.x2a] |})
    with (w := Demo.world_0)
    as (_ & w3 & Hrun).
  - reflexivity.
  - reflexivity.
  - apply lookup_singleton_eq.
  - discriminate.
  - vm_compute. reflexivity.
  - apply (preprocess_decoded _ [Byte.x2a] [[[Byte.x2a; Byte.x2a; Byte.x2a]]]).
    + apply demo_cv2_contract.
    + reflexivity.
  - apply demo_predict_tied.
  - apply demo_gradcam_raises.
  - exists w3. exact Hrun.
Defined.

(** ** model_loader.py: the percentages

    [float(score) * 100] is exact for a float32 score: the product has at
    most 29 significant bits, so the rounding to binary64 changes nothing. *)

Lemma iter_xO_Z (q n : positive) : Zpos (Pos.iter xO q n) = Zpos q * 2 ^ Zpos n.
Proof.
  induction n as [|n IH] using Pos.peano_ind.
  - simpl. lia.
  - rewrite Pos.iter_succ, Pos2Z.inj_xO, IH, Pos2Z.inj_succ, Z.pow_succ_r by lia. lia.
Qed.

Lemma shl_Z (q : positive) (k : Z) : 0 <= k -> Zpos (shl q k) = Zpos q * 2 ^ k.
Proof.
  destruct k as [|p|p]; simpl; intros Hk; [lia|apply iter_xO_Z|lia].
Qed.

Lemma digits2_size (p : positive) : digits2_pos p = Pos.size p.
Proof. induction p; simpl; congruence. Qed.

Lemma digits2_log2 (p : positive) : Zpos (digits2_pos p) = Z.log2 (Zpos p) + 1.
Proof.
  rewrite digits2_size. destruct p; simpl; lia.
Qed.

Lemma digits2_bounds (p : positive) :
  2 ^ (Zpos (digits2_pos p) - 1) <= Zpos p < 2 ^ Zpos (digits2_pos p).
Proof.
  rewrite digits2_log2. replace (Z.log2 (Zpos p) + 1 - 1) with (Z.log2 (Zpos p)) by lia.
  replace (Z.log2 (Zpos p) + 1) with (Z.succ (Z.log2 (Zpos p))) by lia.
  apply Z.log2_spec. lia.
Qed.

Lemma digits2_unique (p : positive) (d : Z) :
  2 ^ (d - 1) <= Zpos p < 2 ^ d -> Zpos (digits2_pos p) = d.
Proof.
  intros H. rewrite digits2_log2.
  assert (0 <= d - 1).
  { destruct (Z.le_gt_cases 0 (d - 1)); [assumption|].
    assert (2 ^ d <= 1).
    { destruct (Z.le_gt_cases 0 d).
      - replace d with 0 by lia. simpl. lia.
      - rewrite Z.pow_neg_r by lia. lia. }
    lia. }
  rewrite (Z.log2_unique (Zpos p) (d - 1)); [lia|lia|].
  replace (Z.succ (d - 1)) with d by lia. exact H.
Qed.

Lemma digits2_shl (q : positive) (k : Z) :
  0 <= k -> Zpos (digits2_pos (shl q k)) = Zpos (digits2_pos q) + k.
Proof.
  intros Hk. apply digits2_unique. rewrite shl_Z by exact Hk.
  pose proof (digits2_bounds q) as [Hlo Hhi].
  replace (Zpos (digits2_pos q) + k - 1) with (Zpos (digits2_pos q) - 1 + k) by lia.
  assert (0 <= Zpos (digits2_pos q) - 1) by lia.
  rewrite !Z.pow_add_r by lia.
  assert (0 < 2 ^ k) by (apply Z.pow_pos_nonneg; lia).
  split; nia.
Qed.

Lemma iter_shr_exact (n q : positive) :
  SpecFloat.iter_pos shr_1 n (Build_shr_record (Zpos (Pos.iter xO q n)) false false)
  = Build_shr_record (Zpos q) false false.
Proof.
  revert q. induction n as [n IH|n IH|]; intros q; simpl.
  - rewrite IH, IH. reflexivity.
  - rewrite IH, IH. reflexivity.
  - reflexivity.
Qed.

Lemma shl_shl (a : positive) (j k : Z) :
  0 <= j -> 0 <= k -> shl (shl a j) k = shl a (j + k).
Proof.
  intros Hj Hk. apply Pos2Z.inj. rewrite !shl_Z by lia.
  rewrite Z.pow_add_r by lia. lia.
Qed.

Lemma shr_fexp_exact (prec emax : Z) (q : positive) (n ex : Z) :
  0 <= n ->
  fexp prec emax (Zpos (digits2_pos q) + n + ex) = ex + n ->
  shr_fexp prec emax (Zpos (shl q n)) ex loc_Exact
  = (Build_shr_record (Zpos q) false false, ex + n).
Proof.
  intros Hn Hfexp. unfold shr_fexp.
  change (Zdigits2 (Zpos (shl q n))) with (Zpos (digits2_pos (shl q n))).
  rewrite digits2_shl by exact Hn. rewrite Hfexp.
  replace (ex + n - ex) with n by lia.
  destruct n as [|p|p]; [| |lia]; simpl.
  - rewrite Z.add_0_r. reflexivity.
  - rewrite iter_shr_exact. reflexivity.
Qed.

Lemma binary_round_aux_exact (prec emax : Z) (s : bool) (q : positive) (n ex : Z) :
  0 <= n ->
  Zpos (digits2_pos q) = prec ->
  emin prec emax <= ex + n ->
  ex + n <= emax - prec ->
  binary_round_aux prec emax s (Zpos (shl q n)) ex loc_Exact = S754_finite s q (ex + n).
Proof.
  intros Hn Hq Hmin Hmax. unfold binary_round_aux.
  rewrite shr_fexp_exact; [|exact Hn|unfold fexp; lia].
  cbn [shr_m loc_of_shr_record round_nearest_even].
  change (Zpos q) with (Zpos (shl q 0)).
  rewrite shr_fexp_exact; [|lia|unfold fexp; lia].
  cbn [shr_m]. rewrite Z.add_0_r.
  replace (Z.leb (ex + n) (emax - prec)) with true by (symmetry; apply Z.leb_le; lia).
  reflexivity.
Qed.

Lemma shl_align_shl (m : positive) (e e' : Z) :
  e' <= e -> shl_align m e e' = (shl m (e - e'), e - (e - e')).
Proof.
  intros He. unfold shl_align.
  destruct (e' - e) as [|p|p] eqn:Hd; [|lia|].
  - replace (e - e') with 0 by lia. simpl. rewrite Z.sub_0_r. reflexivity.
  - replace (e - e') with (Zpos p) by lia. simpl. f_equal. lia.
Qed.

Lemma bounded32_inv (m : positive) (e : Z) :
  bounded Float.prec32 Float.emax32 m e = true ->
  Zpos (digits2_pos m) <= 24 /\ -149 <= e <= 104.
Proof.
  unfold bounded, canonical_mantissa, fexp, emin, Float.prec32, Float.emax32.
  intros H. apply andb_true_iff in H as [H1 H2].
  apply Z.eqb_eq in H1. apply Z.leb_le in H2. lia.
Qed.

Lemma to_f64_exact (s : bool) (m : positive) (e : Z) :
  bounded Float.prec32 Float.emax32 m e = true ->
  Float.to_f64 (S754_finite s m e)
  = S754_finite s (shl m (53 - Zpos (digits2_pos m))) (e - (53 - Zpos (digits2_pos m))).
Proof.
  intros Hb. apply bounded32_inv in Hb as [HD He].
  unfold Float.to_f64, Float.round_to, binary_round.
  replace (fexp Float.prec64 Float.emax64 (Zpos (digits2_pos m) + e))
    with (e - (53 - Zpos (digits2_pos m)))
    by (unfold fexp, emin, Float.prec64, Float.emax64; lia).
  rewrite shl_align_shl by lia.
  replace (e - (e - (53 - Zpos (digits2_pos m)))) with (53 - Zpos (digits2_pos m)) by lia.
  set (d := 53 - Zpos (digits2_pos m)).
  change (Zpos (shl m d)) with (Zpos (shl (shl m d) 0)).
  rewrite binary_round_aux_exact.
  - rewrite Z.add_0_r. reflexivity.
  - lia.
  - rewrite digits2_shl by (subst d; lia). subst d. unfold Float.prec64. lia.
  - unfold emin, Float.prec64, Float.emax64. subst d. lia.
  - unfold Float.prec64, Float.emax64. subst d. lia.
Qed.

Lemma f64_100 : Float.f64_of_Z 100 = S754_finite false 7036874417766400 (-46).
Proof. vm_compute. reflexivity. Qed.

Lemma digits2_mul25 (m : positive) :
  Zpos (digits2_pos m) + 4 <= Zpos (digits2_pos (m * 25)) <= Zpos (digits2_pos m) + 5.
Proof.
  pose proof (digits2_bounds m) as [Hlo Hhi].
  pose proof (digits2_bounds (m * 25)) as [Hlo' Hhi'].
  rewrite Pos2Z.inj_mul in Hlo', Hhi'.
  set (D := Zpos (digits2_pos m)) in *. set (D' := Zpos (digits2_pos (m * 25))) in *.
  assert (HD : 1 <= D) by (subst D; lia).
  assert (HD' : 1 <= D') by (subst D'; lia).
  split.
  - assert (H : 2 ^ (D + 3) < 2 ^ D').
    { replace (D + 3) with (D - 1 + 4) by lia. rewrite Z.pow_add_r by lia.
      change (2 ^ 4) with 16. lia. }
    apply Z.pow_lt_mono_r_iff in H; lia.
  - assert (H : 2 ^ (D' - 1) < 2 ^ (D + 5)).
    { rewrite (Z.pow_add_r 2 D 5) by lia. change (2 ^ 5) with 32. lia. }
    apply Z.pow_lt_mono_r_iff in H; lia.
Qed.

Lemma mul100_exact (s : bool) (m : positive) (e : Z) :
  bounded Float.prec32 Float.emax32 m e = true ->
  exists q E,
    Float.mul64 (Float.to_f64 (S754_finite s m e)) (Float.f64_of_Z 100)
    = S754_finite s q E /\
    -300 <= E /\ -300 <= e /\
    Zpos q * 2 ^ (E + 300) = 100 * Zpos m * 2 ^ (e + 300).
Proof.
  intros Hb. rewrite (to_f64_exact s m e Hb), f64_100.
  apply bounded32_inv in Hb as [HD He].
  pose proof (digits2_mul25 m) as HD'.
  set (D := Zpos (digits2_pos m)) in *. set (D' := Zpos (digits2_pos (m * 25))) in *.
  assert (HD1 : 1 <= D) by (subst D; lia).
  exists (shl (m * 25) (53 - D')), (e + D' - 51).
  split; [|split; [lia|split; [lia|]]].
  - unfold Float.mul64, SFmul.
    replace (shl m (53 - D) * 7036874417766400)%positive
      with (shl (shl (m * 25) (53 - D')) (D' - D + 48)).
    + rewrite binary_round_aux_exact.
      * f_equal; [destruct s; reflexivity|lia].
      * lia.
      * rewrite digits2_shl by lia. fold D'. unfold Float.prec64. lia.
      * unfold emin, Float.prec64, Float.emax64. lia.
      * unfold Float.prec64, Float.emax64. lia.
    + rewrite shl_shl by lia. apply Pos2Z.inj.
      rewrite Pos2Z.inj_mul, !shl_Z by lia. rewrite Pos2Z.inj_mul.
      replace (53 - D' + (D' - D + 48)) with (53 - D + 48) by lia.
      rewrite (Z.pow_add_r 2 (53 - D) 48) by lia.
      change (Zpos 7036874417766400) with (25 * 2 ^ 48). lia.
  - rewrite shl_Z by lia. rewrite Pos2Z.inj_mul.
    rewrite <- Z.mul_assoc, <- Z.pow_add_r by lia.
    replace (53 - D' + (e + D' - 51 + 300)) with (e + 300 + 2) by lia.
    rewrite Z.pow_add_r by lia. change (2 ^ 2) with 4. lia.
Qed.

Lemma Qpower2_shift (z : Z) (k : Z) :
  0 <= k -> 0 <= z + k ->
  (Qpower (2 # 1) z * inject_Z (2 ^ k) == inject_Z (2 ^ (z + k)))%Q.
Proof.
  intros Hk Hz.
  rewrite !Zpower_Qpower by lia.
  change (inject_Z 2) with (2 # 1)%Q.
  rewrite <- Qpower_plus by discriminate. reflexivity.
Qed.

Lemma to_Q_scaled (s : bool) (m : positive) (e : Z) :
  -300 <= e ->
  (to_Q (S754_finite s m e) * inject_Z (2 ^ 300)
   == inject_Z ((if s then Zneg m else Zpos m) * 2 ^ (e + 300)))%Q.
Proof.
  intros He. unfold to_Q. rewrite <- Qmult_assoc.
  rewrite Qpower2_shift by lia. rewrite <- inject_Z_mult. reflexivity.
Qed.

Lemma mul100_to_Q (x : spec_float) :
  finite32 x = true ->
  let y := Float.mul64 (Float.to_f64 x) (Float.f64_of_Z 100) in
  Float.is_finite y = true /\ (to_Q y == 100 * to_Q x)%Q.
Proof.
  unfold finite32. intros H. apply andb_true_iff in H as [Hfin Hvalid].
  destruct x as [s|s| |s m e]; try discriminate.
  - rewrite f64_100. simpl. split; reflexivity.
  - simpl in Hvalid.
    destruct (mul100_exact s m e Hvalid) as (q & E & -> & HE & He & Heq).
    split; [reflexivity|].
    assert (H300 : ~ (inject_Z (2 ^ 300) == 0)%Q) by (intros Hc; vm_compute in Hc; discriminate).
    apply (Qmult_inj_r _ _ _ H300).
    rewrite <- Qmult_assoc. rewrite !to_Q_scaled by lia.
    change 100%Q with (inject_Z 100). rewrite <- inject_Z_mult.
    apply inject_Z_injective.
    destruct s.
    + change (Zneg q) with (- Zpos q). change (Zneg m) with (- Zpos m). lia.
    + lia.
Qed.

Lemma percent_sum_exact (row : list spec_float) :
  Forall (fun x => finite32 x = true) row ->
  (exact_sum (map (fun x => Float.mul64 (Float.to_f64 x) (Float.f64_of_Z 100)) row)
   == 100 * exact_sum row)%Q.
Proof.
  induction 1 as [|x row Hx _ IH]; simpl.
  - reflexivity.
  - destruct (mul100_to_Q x Hx) as [_ Hval]. rewrite Hval, IH. ring.
Qed.

Lemma finite32_not_nan (x : spec_float) : finite32 x = true -> Float.is_nan x = false.
Proof. destruct x; simpl; intros H; try reflexivity; discriminate. Qed.

Lemma percent_map_values (row : list spec_float) :
  length row = 7%nat ->
  map snd (percent_map row)
  = map (fun x => Float.mul64 (Float.to_f64 x) (Float.f64_of_Z 100)) row.
Proof.
  intros Hlen. destruct (length_7_inv row Hlen) as (x0 & x1 & x2 & x3 & x4 & x5 & x6 & ->).
  reflexivity.
Qed.

(** C3, as the code has it: [predict] applies no softmax; the values of the
    probability map are the raw scores of the model, each converted to a
    Python float and multiplied by 100, which is exact.  So the values sum to
    exactly 100 times the sum of the scores, and they sum to 100 within 1e-2
    whenever the K = 7 scores are finite and already sum to 1 within 1e-4. *)
Theorem percent_map_sum (L : Libs) (self : ModelLoader.SkinCancerModel)
    (img : ndarray3 spec_float) (w : world) (row : list spec_float) :
  ModelLoader.class_names self = ModelLoader.class_names_0 ->
  keras_predict L [img] = inr [row] ->
  length row = 7%nat ->
  Forall (fun x => finite32 x = true) row ->
  (Qabs (exact_sum row - 1) <= 1 # 10000)%Q ->
  exists c conf probs,
    fst (ModelLoader.predict L self img w) = inr (Some c, Some conf, Some probs) /\
    map snd probs
    = map (fun x => Float.mul64 (Float.to_f64 x) (Float.f64_of_Z 100)) row /\
    (exact_sum (map snd probs) == 100 * exact_sum row)%Q /\
    (Qabs (exact_sum (map snd probs) - 100) <= 1 # 100)%Q.
Proof.
  intros Hnames Hrow Hlen Hfin Hsum.
  destruct (predict_seven_scores L self img w row Hnames Hrow Hlen)
    as (idx & p & conf & probs & Hrun & _ & _ & _ & -> & _).
  { eapply Forall_impl; [exact Hfin|]. intros x. apply finite32_not_nan. }
  exists (Z.of_nat idx), conf, (percent_map row).
  split; [exact Hrun|].
  rewrite (percent_map_values row Hlen).
  split; [reflexivity|].
  pose proof (percent_sum_exact row Hfin) as Hexact.
  split; [exact Hexact|].
  apply Qabs_Qle_condition in Hsum as [Hlo Hhi].
  apply Qabs_Qle_condition. rewrite Hexact. split; lra.
Qed.

Lemma percent_map_sum_witness :
  exists c conf probs,
    fst (ModelLoader.predict (Demo.libs (ok [Demo.tied_scores]) (ok []))
           {| ModelLoader.class_names := ModelLoader.class_names_0 |} [] Demo.world_0)
    = inr (Some c, Some conf, Some probs) /\
    (Qabs (exact_sum (map snd probs) - 100) <= 1 # 100)%Q.
Proof.
  destruct (percent_map_sum (Demo.libs (ok [Demo.tied_scores]) (ok []))
              {| ModelLoader.class_names := ModelLoader.class_names_0 |}
              [] Demo.world_0 Demo.tied_scores)
    as (c & conf & probs & Hrun & _ & _ & Hsum).
  - reflexivity.
  - reflexivity.
  - reflexivity.
  - repeat constructor.
  - vm_compute. discriminate.
  - exists c, conf, probs. split; [exact Hrun|exact Hsum].
Defined.

(** C3, as stated, fails: on raw scores that are not a distribution (seven
    scores 1.0) [predict] applies no softmax, every value of the map is 100
    and the values sum to 700. *)
Lemma raw_scores_sum_to_700 :
  exists c conf probs,
    fst (ModelLoader.predict (Demo.libs (ok [Demo.raw_scores]) (ok []))
           {| ModelLoader.class_names := ModelLoader.class_names_0 |} [] Demo.world_0)
    = inr (Some c, Some conf, Some probs) /\
    (exact_sum (map snd probs) == 700)%Q /\
    ~ (Qabs (exact_sum (map snd probs) - 100) <= 1 # 100)%Q.
Proof.
  exists 0, (S754_finite false 7036874417766400 (-46)),
    (percent_map Demo.raw_scores).
  split; [vm_compute; reflexivity|].
  split; [vm_compute; reflexivity|].
  intros H. vm_compute in H. apply H. reflexivity.
Qed.

(** ** model_loader.py: [generate_gradcam] *)



(** * Further properties *)

(** ** The runs of the view [predict] *)

Lemma predict_body_world (L : Libs) (self : ModelLoader.SkinCancerModel)
    (img : ndarray3 spec_float) (w : world) :
  snd (ModelLoader.predict_body L self img w)
  = World (class_info w) (calls w ++ [CallKerasPredict [img]]).
Proof.
  unfold ModelLoader.predict_body, pbind, record_call, lift, ret. cbv beta iota.
  destruct (keras_predict L [img]) as [e|preds]; [reflexivity|]. cbv beta iota.
  destruct (py_getitem preds 0) as [e|row]; [reflexivity|]. cbv beta iota.
  destruct (ModelLoader.np_argmax row) as [e|idx]; [reflexivity|]. cbv beta iota zeta.
  destruct (py_getitem row (Z.of_nat idx)) as [e|p]; [reflexivity|]. cbv beta iota.
  destruct (for_each _ (enumerate row) []) as [e|d]; reflexivity.
Qed.

(** [generate_gradcam] never raises: it returns the encoded figure or [None],
    and logs its one call. *)
Lemma generate_gradcam_cases (L : Libs) (self : ModelLoader.SkinCancerModel)
    (img : ndarray3 spec_float) (c : Z) (w : world) :
  exists heat,
    ModelLoader.generate_gradcam L self img c w
    = (inr heat, World (class_info w) (calls w ++ [CallGradcam [img] c])) /\
    (heat = None <->
     exists e w', ModelLoader.generate_gradcam_body L self img c w = (inl e, w')).
Proof.
  unfold ModelLoader.generate_gradcam, ModelLoader.generate_gradcam_body,
    try_except, pbind, record_call, lift, ret. cbv beta iota.
  destruct (gradcam_call L [img] c) as [e|cams]; cbv beta iota;
    [exists None; split; [reflexivity|split; eauto]|].
  destruct (py_getitem cams 0) as [e|cam0]; cbv beta iota;
    [exists None; split; [reflexivity|split; eauto]|].
  destruct (tfkv_normalize L cam0) as [e|cam]; cbv beta iota;
    [exists None; split; [reflexivity|split; eauto]|].
  destruct (plt_figure_png L img cam) as [e|buf]; cbv beta iota;
    [exists None; split; [reflexivity|split; eauto]|].
  eexists. split; [reflexivity|]. split; [discriminate|].
  intros (e & w' & H). discriminate.
Qed.

(** The three ways a request that passed the checks of the view can end. *)
Lemma predict_view_runs (L : Libs) (g : App.globals) (m : ModelLoader.SkinCancerModel)
    (p : Utils.ImagePreprocessor) (req : App.request) (file : App.file_storage)
    (w : world) :
  App.model g = Some m ->
  App.preprocessor g = Some p ->
  App.files req !! "file" = Some file ->
  App.filename file <> "" ->
  App.allowed_file (App.filename file) = true ->
  (Utils.preprocess L p (App.stream file) = None /\
   App.predict L g req w = (inr (App.ErrorPayload "Could not process image", 400), w)) \/
  (exists img e w1,
     Utils.preprocess L p (App.stream file) = Some img /\
     ModelLoader.predict_body L m img w = (inl e, w1) /\
     App.predict L g req w
     = (inr (App.ErrorPayload "Prediction failed", 500),
        World (class_info w) (calls w ++ [CallKerasPredict [img]]))) \/
  (exists img c conf probs heat info name w3,
     Utils.preprocess L p (App.stream file) = Some img /\
     ModelLoader.predict_body L m img w
     = (inr (c, conf, probs), World (class_info w) (calls w ++ [CallKerasPredict [img]])) /\
     ModelLoader.generate_gradcam L m img c
       (World (class_info w) (calls w ++ [CallKerasPredict [img]]))
     = (inr heat,
        World (class_info w) ((calls w ++ [CallKerasPredict [img]]) ++ [CallGradcam [img] c])%list) /\
     ModelLoader.get_class_info m c
       (World (class_info w) ((calls w ++ [CallKerasPredict [img]]) ++ [CallGradcam [img] c])%list)
     = (inr info, w3) /\
     calls w3 = ((calls w ++ [CallKerasPredict [img]]) ++ [CallGradcam [img] c])%list /\
     py_getitem (ModelLoader.class_names m) c = inr name /\
     App.predict L g req w
     = (inr (App.ErrorPayload "Object of type int64 is not JSON serializable", 500),
        w3)).
Proof.
  intros Hm Hp Hfile Hname Hext.
  remember (App.predict L g req w) as out eqn:Hout.
  unfold App.predict in Hout. rewrite Hm, Hp, Hfile in Hout.
  destruct (String.eqb_spec (App.filename file) "") as [Heq|_]; [contradiction|].
  rewrite Hext in Hout. cbn [negb] in Hout. unfold try_except at 1 in Hout.
  destruct (Utils.preprocess L p (App.stream file)) as [img|];
    [|left; split; [reflexivity|exact Hout]].
  right. unfold pbind at 1 in Hout.
  pose proof (predict_body_world L m img w) as Hw1.
  destruct (predict_cases L m img w)
    as [(c & conf & probs & w1 & Hb & Hpred)|(e & w1 & Hb & Hpred)];
    rewrite Hpred in Hout; rewrite Hb in Hw1; simpl in Hw1; subst w1.
  - right.
    destruct (generate_gradcam_cases L m img c
                (World (class_info w) (calls w ++ [CallKerasPredict [img]])))
      as (heat & Hheat & _).
    cbn [class_info calls] in Hheat.
    destruct (predict_body_class_name L m img w _ c conf probs Hb) as [name Hcn].
    destruct (get_class_info_total m c
                (World (class_info w)
                   ((calls w ++ [CallKerasPredict [img]]) ++ [CallGradcam [img] c]))
                name Hcn) as (info & w3 & Hinfo & Hcalls).
    exists img, c, conf, probs, heat, info, name, w3.
    split; [reflexivity|]. split; [exact Hb|]. split; [exact Hheat|].
    split; [exact Hinfo|]. split; [exact Hcalls|]. split; [exact Hcn|].
    unfold pbind at 1 in Hout. rewrite Hheat in Hout.
    unfold pbind at 1 in Hout. rewrite Hinfo in Hout.
    unfold pbind, lift, ret, App.not_none, ok in Hout. cbv beta iota zeta in Hout.
    rewrite Hcn in Hout. cbv beta iota zeta in Hout.
    rewrite jsonify_predict_payload in Hout. exact Hout.
  - left. exists img, e, (World (class_info w) (calls w ++ [CallKerasPredict [img]])).
    split; [reflexivity|]. split; [exact Hb|]. exact Hout.
Qed.

(** Every run of the view [predict], whatever the globals and the request. *)
Lemma predict_view_outcomes (L : Libs) (g : App.globals) (req : App.request) (w : world) :
  (exists msg st, App.predict L g req w = (inr (App.ErrorPayload msg, st), w) /\
                  (st = 400 \/ st = 500)) \/
  (exists img,
     App.predict L g req w
     = (inr (App.ErrorPayload "Prediction failed", 500),
        World (class_info w) (calls w ++ [CallKerasPredict [img]]))) \/
  (exists w3,
     App.predict L g req w
     = (inr (App.ErrorPayload "Object of type int64 is not JSON serializable", 500),
        w3)).
Proof.
  destruct (App.model g) as [m|] eqn:Hm;
    [|left; exists "Model not loaded. Please check server logs.", 500;
      unfold App.predict; rewrite Hm; split; [reflexivity|right; reflexivity]].
  destruct (App.preprocessor g) as [p|] eqn:Hp;
    [|left; exists "Model not loaded. Please check server logs.", 500;
      unfold App.predict; rewrite Hm, Hp; split; [reflexivity|right; reflexivity]].
  destruct (App.files req !! "file") as [file|] eqn:Hfile;
    [|left; exists "No file uploaded", 400;
      unfold App.predict; rewrite Hm, Hp, Hfile; split; [reflexivity|left; reflexivity]].
  destruct (String.eqb_spec (App.filename file) "") as [Heq|Hne].
  { left. exists "No file selected", 400. unfold App.predict.
    rewrite Hm, Hp, Hfile, Heq. split; [reflexivity|left; reflexivity]. }
  destruct (App.allowed_file (App.filename file)) eqn:Hext.
  - destruct (predict_view_runs L g m p req file w Hm Hp Hfile Hne Hext)
      as [[_ Hrun]|[(img & e & w1 & _ & _ & Hrun)|
                    (img & c & conf & probs & heat & info & name & w3 & H)]].
    + left. eexists. eexists. split; [exact Hrun|left; reflexivity].
    + right. left. exists img. exact Hrun.
    + right. right. destruct H as (_ & _ & _ & _ & _ & _ & Hrun).
      exists w3. exact Hrun.
  - left. exists "Invalid file type. Please upload an image.", 400.
    unfold App.predict. rewrite Hm, Hp, Hfile.
    destruct (String.eqb_spec (App.filename file) "") as [|_]; [contradiction|].
    rewrite Hext. split; [reflexivity|left; reflexivity].
Qed.

(** X1: the view [predict] never delivers a prediction.  Whatever the state
    of the service and the request, an answer that the view returns is an
    error message with status 400 or 500, never a prediction and never status
    200: a run that gets as far as building the response ends in the handler
    of the view, because the response cannot be serialised. *)
Theorem predict_view_never_answers_200 (L : Libs) (g : App.globals) (req : App.request)
    (w : world) (p : App.payload) (st : Z) :
  fst (App.predict L g req w) = inr (p, st) ->
  (st = 400 \/ st = 500) /\ exists msg, p = App.ErrorPayload msg.
Proof.
  destruct (predict_view_outcomes L g req w)
    as [(msg & st' & -> & Hst)|[(img & ->)|(w3 & ->)]]; simpl;
    intros [= <- <-]; eauto.
Qed.

Lemma predict_view_never_answers_200_witness :
  exists msg,
    fst (App.predict (Demo.libs (ok [Demo.tied_scores]) (ok [])) Demo.loaded
           {| App.files := {[ "file" := {| App.filename := "notes.txt";
                                            App.stream := [Byte.x2a] |} ]} |}
           Demo.world_0)
    = inr (App.ErrorPayload msg, 400).
Proof.
  destruct (predict_view_never_answers_200
              (Demo.libs (ok [Demo.tied_scores]) (ok [])) Demo.loaded
              {| App.files := {[ "file" := {| App.filename := "notes.txt";
                                               App.stream := [Byte.x2a] |} ]} |}
              Demo.world_0
              (App.ErrorPayload "Invalid file type. Please upload an image.") 400)
    as [_ [msg Hmsg]].
  - vm_compute. reflexivity.
  - exists "Invalid file type. Please upload an image.". vm_compute. reflexivity.
Defined.

(** X2: a request that the view [predict] answers with status 400 has
    changed nothing: the registry is as before and no call into the
    classifier was made. *)
Theorem rejected_request_changes_nothing (L : Libs) (g : App.globals)
    (req : App.request) (w : world) :
  status (fst (App.predict L g req w)) = Some 400 ->
  snd (App.predict L g req w) = w.
Proof.
  destruct (predict_view_outcomes L g req w)
    as [(msg & st & -> & Hst)|[(img & ->)|(w3 & ->)]]; simpl.
  - reflexivity.
  - discriminate.
  - discriminate.
Qed.

Lemma rejected_request_changes_nothing_witness :
  snd (App.predict (Demo.libs (ok [Demo.tied_scores]) (ok [])) Demo.loaded
         {| App.files := {[ "file" := {| App.filename := "notes.txt";
                                          App.stream := [Byte.x2a] |} ]} |}
         Demo.world_0)
  = Demo.world_0.
Proof.
  apply (rejected_request_changes_nothing (Demo.libs (ok [Demo.tied_scores]) (ok []))
           Demo.loaded).
  vm_compute. reflexivity.
Defined.

(** What a successful run of the body of [predict] has computed. *)
Lemma predict_body_inv (L : Libs) (self : ModelLoader.SkinCancerModel)
    (img : ndarray3 spec_float) (w w' : world) (c : Z) (conf : spec_float)
    (probs : dict spec_float) :
  ModelLoader.predict_body L self img w = (inr (c, conf, probs), w') ->
  exists preds row idx p name,
    keras_predict L [img] = inr preds /\
    py_getitem preds 0 = inr row /\
    ModelLoader.np_argmax row = inr idx /\
    c = Z.of_nat idx /\
    row !! idx = Some p /\
    conf = Float.mul64 (Float.to_f64 p) (Float.f64_of_Z 100) /\
    ModelLoader.class_names self !! idx = Some name.
Proof.
  intros Hrun. pose proof Hrun as Hrun0. revert Hrun.
  unfold ModelLoader.predict_body, pbind, record_call, lift, ret. cbv beta iota.
  destruct (keras_predict L [img]) as [e|preds] eqn:Hpreds; [discriminate|].
  cbv beta iota.
  destruct (py_getitem preds 0) as [e|row] eqn:Hrow; [discriminate|]. cbv beta iota.
  destruct (ModelLoader.np_argmax row) as [e|idx] eqn:Hidx; [discriminate|].
  cbv beta iota zeta.
  destruct (py_getitem row (Z.of_nat idx)) as [e|p] eqn:Hp; [discriminate|].
  cbv beta iota.
  destruct (for_each _ (enumerate row) []) as [e|d] eqn:Hloop; [discriminate|].
  intros [= <- <- <- _].
  destruct (predict_body_class_name L self img w w' _ _ _ Hrun0) as [name Hname].
  assert (Hnat : forall (A : Type) (l : list A) (x : A),
             py_getitem l (Z.of_nat idx) = inr x -> l !! idx = Some x).
  { intros A l x. unfold py_getitem.
    destruct (Z.ltb_spec (Z.of_nat idx) 0) as [Hneg|_]; [lia|].
    destruct (Z.ltb_spec (Z.of_nat idx) 0) as [Hneg|_]; [lia|].
    rewrite Nat2Z.id, nth_error_lookup.
    destruct (l !! idx); [intros [= <-]; reflexivity|discriminate]. }
  exists preds, row, idx, p, name.
  split; [reflexivity|]. split; [exact Hrow|]. split; [exact Hidx|].
  split; [reflexivity|]. split; [apply Hnat; exact Hp|].
  split; [reflexivity|]. apply Hnat. exact Hname.
Qed.

(** X3: when the forward pass of the classifier raises on an accepted,
    decodable upload, the view answers "Prediction failed" with status 500;
    the forward pass is the only call into the classifier (Grad-CAM is not
    run) and the registry is untouched. *)
Theorem classifier_failure_answer (L : Libs) (g : App.globals)
    (m : ModelLoader.SkinCancerModel) (p : Utils.ImagePreprocessor)
    (req : App.request) (file : App.file_storage) (img : ndarray3 spec_float)
    (e : exn) (w : world) :
  App.model g = Some m ->
  App.preprocessor g = Some p ->
  App.files req !! "file" = Some file ->
  App.filename file <> "" ->
  App.allowed_file (App.filename file) = true ->
  Utils.preprocess L p (App.stream file) = Some img ->
  keras_predict L [img] = inl e ->
  App.predict L g req w
  = (inr (App.ErrorPayload "Prediction failed", 500),
     World (class_info w) (calls w ++ [CallKerasPredict [img]])).
Proof.
  intros Hm Hp Hfile Hne Hext Hpre Hk.
  destruct (predict_view_runs L g m p req file w Hm Hp Hfile Hne Hext)
    as [[Hnone _]|[(img' & e' & w1 & Hpre' & _ & Hrun)|
                   (img' & c & conf & probs & heat & info & name & w3 & H)]].
  - congruence.
  - rewrite Hpre in Hpre'. injection Hpre' as <-. exact Hrun.
  - destruct H as (Hpre' & Hb & _).
    rewrite Hpre in Hpre'. injection Hpre' as <-.
    destruct (predict_body_inv L m img w _ c conf probs Hb) as (preds & row & H).
    destruct H as (idx & p0 & name0 & Hk' & _). congruence.
Qed.

Lemma classifier_failure_answer_witness :
  status (fst (App.predict
                 (Demo.libs (raise (Exn "InvalidArgumentError" "incompatible shapes"))
                    (ok []))
                 Demo.loaded (Demo.upload [Byte.x2a]) Demo.world_0))
  = Some 500.
Proof.
  erewrite (classifier_failure_answer
              (Demo.libs (raise (Exn "InvalidArgumentError" "incompatible shapes")) (ok []))
              Demo.loaded _ _ (Demo.upload [Byte.x2a])
              {| App.filename := "lesion.PNG"; App.stream := [Byte.x2a] |}).
  - reflexivity.
  - reflexivity.
  - reflexivity.
  - apply lookup_singleton_eq.
  - discriminate.
  - vm_compute. reflexivity.
  - apply (preprocess_decoded _ [Byte.x2a] [[[Byte.x2a; Byte.x2a; Byte.x2a]]]).
    + apply demo_cv2_contract.
    + reflexivity.
  - reflexivity.
Defined.

(** The third of the runs above, for a classification known to succeed. *)
Lemma predict_view_classified (L : Libs) (g : App.globals)
    (m : ModelLoader.SkinCancerModel) (p : Utils.ImagePreprocessor)
    (req : App.request) (file : App.file_storage) (img : ndarray3 spec_float)
    (c : Z) (conf : spec_float) (probs : dict spec_float) (w w1 : world) :
  App.model g = Some m ->
  App.preprocessor g = Some p ->
  App.files req !! "file" = Some file ->
  App.filename file <> "" ->
  App.allowed_file (App.filename file) = true ->
  Utils.preprocess L p (App.stream file) = Some img ->
  ModelLoader.predict L m img w = (inr (Some c, Some conf, Some probs), w1) ->
  exists info w3,
    ModelLoader.predict_body L m img w
    = (inr (c, conf, probs), World (class_info w) (calls w ++ [CallKerasPredict [img]])) /\
    ModelLoader.get_class_info m c
      (World (class_info w) ((calls w ++ [CallKerasPredict [img]]) ++ [CallGradcam [img] c])%list)
    = (inr info, w3) /\
    calls w3 = (calls w ++ [CallKerasPredict [img]; CallGradcam [img] c])%list /\
    App.predict L g req w
    = (inr (App.ErrorPayload "Object of type int64 is not JSON serializable", 500),
       w3).
Proof.
  intros Hm Hp Hfile Hne Hext Hpre Hpred.
  destruct (predict_view_runs L g m p req file w Hm Hp Hfile Hne Hext)
    as [[Hnone _]|[(img' & e' & w' & Hpre' & Hb & _)|
                   (img' & c' & conf' & probs' & heat & info & name & w3 & H)]].
  - congruence.
  - rewrite Hpre in Hpre'. injection Hpre' as <-.
    unfold ModelLoader.predict, try_except, pbind in Hpred. rewrite Hb in Hpred.
    discriminate.
  - destruct H as (Hpre' & Hb & _ & Hinfo & Hcalls & _ & Hrun).
    rewrite Hpre in Hpre'. injection Hpre' as <-.
    unfold ModelLoader.predict, try_except, pbind in Hpred. rewrite Hb in Hpred.
    injection Hpred as <- <- <- _.
    exists info, w3. split; [exact Hb|]. split; [exact Hinfo|].
    split; [rewrite Hcalls, <- app_assoc; reflexivity|exact Hrun].
Qed.

(** X4: when the classification of an accepted, decodable upload succeeds,
    the view calls into the classifier exactly twice, in this order: the
    forward pass on the preprocessed upload, then the Grad-CAM call of
    [generate_gradcam] on that same tensor, for the predicted class. *)
Theorem explanation_follows_classification (L : Libs) (g : App.globals)
    (m : ModelLoader.SkinCancerModel) (p : Utils.ImagePreprocessor)
    (req : App.request) (file : App.file_storage) (img : ndarray3 spec_float)
    (c : Z) (conf : spec_float) (probs : dict spec_float) (w w1 : world) :
  App.model g = Some m ->
  App.preprocessor g = Some p ->
  App.files req !! "file" = Some file ->
  App.filename file <> "" ->
  App.allowed_file (App.filename file) = true ->
  Utils.preprocess L p (App.stream file) = Some img ->
  ModelLoader.predict L m img w = (inr (Some c, Some conf, Some probs), w1) ->
  calls (snd (App.predict L g req w))
  = (calls w ++ [CallKerasPredict [img]; CallGradcam [img] c])%list.
Proof.
  intros Hm Hp Hfile Hne Hext Hpre Hpred.
  destruct (predict_view_classified L g m p req file img c conf probs w w1
              Hm Hp Hfile Hne Hext Hpre Hpred)
    as (info & w3 & _ & _ & Hcalls & ->).
  exact Hcalls.
Qed.

Lemma explanation_follows_classification_witness :
  exists img,
    calls (snd (App.predict (Demo.libs (ok [Demo.tied_scores]) (ok [[[Demo.one]]]))
                  Demo.loaded (Demo.upload [Byte.x2a]) Demo.world_0))
    = [CallKerasPredict [img]; CallGradcam [img] 1].
Proof.
  eexists.
  eapply (explanation_follows_classification
           (Demo.libs (ok [Demo.tied_scores]) (ok [[[Demo.one]]]))
           Demo.loaded
           {| ModelLoader.class_names := ModelLoader.class_names_0 |}
           Utils.init
           (Demo.upload [Byte.x2a])
           {| App.filename := "lesion.PNG"; App.stream := [Byte.x2a] |})
    with (w := Demo.world_0).
  - reflexivity.
  - reflexivity.
  - apply lookup_singleton_eq.
  - discriminate.
  - vm_compute. reflexivity.
  - apply (preprocess_decoded _ [Byte.x2a] [[[Byte.x2a; Byte.x2a; Byte.x2a]]]).
    + apply demo_cv2_contract.
    + reflexivity.
  - apply demo_predict_tied.
Defined.

Lemma is_record_of_full_name (i : Z) (r0 : gmap string string) (n : string) :
  ModelLoader.class_info_0 !! i = Some r0 ->
  is_record_of i (<["full_name" := n]> r0).
Proof.
  intros H0. exists r0. split; [exact H0|].
  intros k Hk. apply lookup_insert_ne. intros <-.
  unfold authored_fields in Hk.
  repeat (apply elem_of_cons in Hk as [Hk|Hk]; [discriminate|]).
  apply elem_of_nil in Hk. contradiction.
Qed.

(** X5: a prediction request fails and still changes the service.  On a
    service whose registry is in a state the service can reach, an accepted,
    decodable upload whose classification succeeds is answered with status
    500 and the message of the serialisation error instead of its result; the
    predicted class lies in 0..6, and before the failure the view has looked
    up the record of that class, so that the registry now holds the display
    name of the class under ["full_name"] in it. *)
Theorem failed_prediction_writes_registry (L : Libs) (g : App.globals)
    (m : ModelLoader.SkinCancerModel) (p : Utils.ImagePreprocessor)
    (req : App.request) (file : App.file_storage) (img : ndarray3 spec_float)
    (c : Z) (conf : spec_float) (probs : dict spec_float) (w w1 : world) :
  App.model g = Some m ->
  App.preprocessor g = Some p ->
  App.files req !! "file" = Some file ->
  App.filename file <> "" ->
  App.allowed_file (App.filename file) = true ->
  Utils.preprocess L p (App.stream file) = Some img ->
  ModelLoader.predict L m img w = (inr (Some c, Some conf, Some probs), w1) ->
  ModelLoader.class_names m = ModelLoader.class_names_0 ->
  registry_ok (class_info w) ->
  exists name r0,
    0 <= c < 7 /\
    ModelLoader.class_names_0 !! Z.to_nat c = Some name /\
    ModelLoader.class_info_0 !! c = Some r0 /\
    is_record_of c (<["full_name" := name]> r0) /\
    App.predict L g req w
    = (inr (App.ErrorPayload "Object of type int64 is not JSON serializable", 500),
       World (<[c := <["full_name" := name]> r0]> (class_info w))
             (calls w ++ [CallKerasPredict [img]; CallGradcam [img] c])).
Proof.
  intros Hm Hp Hfile Hne Hext Hpre Hpred Hnames Hok.
  destruct (predict_view_classified L g m p req file img c conf probs w w1
              Hm Hp Hfile Hne Hext Hpre Hpred)
    as (info & w3 & Hb & Hinfo & Hcalls & Hrun).
  destruct (predict_body_inv L m img w _ c conf probs Hb)
    as (preds & row & idx & p0 & name & _ & _ & _ & -> & _ & _ & Hname).
  rewrite Hnames in Hname.
  assert (Hlt : (idx < 7)%nat) by (apply lookup_lt_Some in Hname; exact Hname).
  pose proof (get_class_info_run m (Z.of_nat idx)
                (World (class_info w)
                   ((calls w ++ [CallKerasPredict [img]])
                    ++ [CallGradcam [img] (Z.of_nat idx)])%list)
                Hnames Hok) as Hget.
  destruct (class_info_0_in_range (Z.of_nat idx)) as [r0 Hr0]; [lia|].
  rewrite Hr0 in Hget. destruct Hget as (n & Hn & Hget).
  rewrite Hget in Hinfo. injection Hinfo as _ <-.
  rewrite Nat2Z.id, nth_error_lookup, Hname in Hn. injection Hn as <-.
  exists name, r0. split; [lia|]. split; [rewrite Nat2Z.id; exact Hname|].
  split; [exact Hr0|]. split; [apply is_record_of_full_name; exact Hr0|].
  rewrite Hrun. cbn [class_info calls]. rewrite <- app_assoc. reflexivity.
Qed.

Lemma failed_prediction_writes_registry_witness :
  exists r0,
    ModelLoader.class_info_0 !! 1 = Some r0 /\
    class_info (snd (App.predict (Demo.libs (ok [Demo.tied_scores]) (ok [[[Demo.one]]]))
                       Demo.loaded (Demo.upload [Byte.x2a]) Demo.world_0))
    = <[1 := <["full_name" := "Nevus (NV)"]> r0]> ModelLoader.class_info_0.
Proof.
  edestruct (failed_prediction_writes_registry
               (Demo.libs (ok [Demo.tied_scores]) (ok [[[Demo.one]]]))
               Demo.loaded
               {| ModelLoader.class_names := ModelLoader.class_names_0 |}
               Utils.init
               (Demo.upload [Byte.x2a])
               {| App.filename := "lesion.PNG"; App.stream := [Byte.x2a] |})
    with (w := Demo.world_0)
    as (name & r0 & _ & Hname & Hr0 & _ & Hrun).
  - reflexivity.
  - reflexivity.
  - apply lookup_singleton_eq.
  - discriminate.
  - vm_compute. reflexivity.
  - apply (preprocess_decoded _ [Byte.x2a] [[[Byte.x2a; Byte.x2a; Byte.x2a]]]).
    + apply demo_cv2_contract.
    + reflexivity.
  - apply demo_predict_tied.
  - reflexivity.
  - apply registry_ok_init.
  - exists r0. split; [exact Hr0|]. rewrite Hrun.
    injection Hname as <-. reflexivity.
Defined.

(** ** The file-type check *)

Lemma rsplit_dot_None (s : string) : App.rsplit_dot s = None <-> no_dot s = true.
Proof.
  induction s as [|c s IH]; simpl.
  - split; reflexivity.
  - destruct (App.rsplit_dot s) as [[h t]|].
    + split; [discriminate|]. intros H. apply andb_true_iff in H as [_ H].
      apply IH in H. discriminate.
    + destruct (Ascii.eqb c "."); simpl.
      * split; discriminate.
      * split; intros _; [apply IH|]; reflexivity.
Qed.

(** [rsplit_dot] cuts at the last dot. *)
Lemma rsplit_dot_spec (s h t : string) :
  App.rsplit_dot s = Some (h, t) <-> s = h ++ "." ++ t /\ no_dot t = true.
Proof.
  split.
  - revert h. induction s as [|c s IH]; intros h; simpl; [discriminate|].
    destruct (App.rsplit_dot s) as [[h' t']|] eqn:Hs.
    + intros [= <- <-]. destruct (IH h' eq_refl) as [-> Ht]. split; [reflexivity|exact Ht].
    + destruct (Ascii.eqb_spec c "."); [|discriminate].
      intros [= <- <-]. subst c. split; [reflexivity|]. apply rsplit_dot_None. exact Hs.
  - intros [-> Ht]. induction h as [|c h IH].
    + apply rsplit_dot_None in Ht.
      change (App.rsplit_dot (String "." t) = Some (EmptyString, t)).
      simpl. rewrite Ht. reflexivity.
    + change (App.rsplit_dot (String c (h ++ "." ++ t)) = Some (String c h, t)).
      simpl. simpl in IH. rewrite IH. reflexivity.
Qed.

Lemma lower_ascii_dot (c : ascii) :
  Ascii.eqb (App.lower_ascii c) "." = Ascii.eqb c ".".
Proof. destruct c as [[] [] [] [] [] [] [] []]; reflexivity. Qed.

Lemma lower_ascii_idem (c : ascii) :
  App.lower_ascii (App.lower_ascii c) = App.lower_ascii c.
Proof. destruct c as [[] [] [] [] [] [] [] []]; reflexivity. Qed.

Lemma lower_idem (s : string) : App.lower (App.lower s) = App.lower s.
Proof.
  induction s as [|c s IH]; simpl; [reflexivity|].
  rewrite lower_ascii_idem, IH. reflexivity.
Qed.

Lemma rsplit_dot_lower (s : string) :
  App.rsplit_dot (App.lower s)
  = match App.rsplit_dot s with
    | Some (h, t) => Some (App.lower h, App.lower t)
    | None => None
    end.
Proof.
  induction s as [|c s IH]; simpl; [reflexivity|].
  rewrite IH. destruct (App.rsplit_dot s) as [[h t]|]; [reflexivity|].
  rewrite lower_ascii_dot. destruct (Ascii.eqb c "."); reflexivity.
Qed.

Lemma allowed_file_lower (s : string) :
  App.allowed_file (App.lower s) = App.allowed_file s.
Proof.
  unfold App.allowed_file. rewrite rsplit_dot_lower.
  destruct (App.rsplit_dot s) as [[h t]|]; [|reflexivity].
  rewrite lower_idem. reflexivity.
Qed.

(** X6: the file-type check accepts a name exactly when the name has a dot
    and the text after its last dot, put in lower case, is one of png, jpg,
    jpeg, bmp, tiff; earlier dots and the text before the last dot play no
    part. *)
Theorem allowed_file_iff (name : string) :
  App.allowed_file name = true <->
  exists stem ext,
    name = stem ++ "." ++ ext /\
    no_dot ext = true /\
    In (App.lower ext) App.allowed_extensions.
Proof.
  unfold App.allowed_file. split.
  - destruct (App.rsplit_dot name) as [[h t]|] eqn:Hs; [|discriminate].
    intros Hin. apply rsplit_dot_spec in Hs as [-> Ht].
    exists h, t. split; [reflexivity|]. split; [exact Ht|].
    apply existsb_exists in Hin as (x & Hx & Heq).
    apply String.eqb_eq in Heq. subst x. exact Hx.
  - intros (stem & ext & Hname & Hdot & Hin).
    assert (Hs : App.rsplit_dot name = Some (stem, ext))
      by (apply rsplit_dot_spec; split; assumption).
    rewrite Hs. apply existsb_exists. exists (App.lower ext).
    split; [exact Hin|apply String.eqb_refl].
Qed.

(** X7: the file-type check ignores the case of letters: two names that
    agree once put in lower case are both accepted or both refused. *)
Theorem allowed_file_ignores_case (a b : string) :
  App.lower a = App.lower b -> App.allowed_file a = App.allowed_file b.
Proof.
  intros H. rewrite <- (allowed_file_lower a), <- (allowed_file_lower b), H.
  reflexivity.
Qed.

Lemma allowed_file_ignores_case_witness :
  App.allowed_file "Scan.01.JPeG" = App.allowed_file "scan.01.jpeg".
Proof.
  apply (allowed_file_ignores_case "Scan.01.JPeG" "scan.01.jpeg"). reflexivity.
Defined.

(** ** [predict] at the edges *)

Lemma np_argmax_nonempty (row : list spec_float) :
  row <> [] ->
  exists idx p, ModelLoader.np_argmax row = inr idx /\ row !! idx = Some p.
Proof.
  intros Hne. destruct row as [|x xs]; [contradiction|].
  assert (H : exists idx, ModelLoader.np_argmax (x :: xs) = inr idx).
  { unfold ModelLoader.np_argmax. destruct (Float.is_nan x); eexists; reflexivity. }
  destruct H as [idx Hidx]. pose proof (np_argmax_lt _ _ Hidx) as Hlt.
  apply lookup_lt_is_Some_2 in Hlt as [p Hp]. exists idx, p. split; assumption.
Qed.

Lemma loop_percent_map {V} (f : spec_float -> V) (row : list spec_float) :
  (length row <= 7)%nat ->
  for_each
    (fun (d : dict V) (ip : Z * spec_float) =>
       let (i, prob) := ip in
       let* name := py_getitem ModelLoader.class_names_0 i in
       ok (dict_set d name (f prob)))
    (enumerate row) []
  = inr (combine ModelLoader.class_names_0 (map f row)).
Proof.
  intros Hlen.
  destruct row as [|x0 [|x1 [|x2 [|x3 [|x4 [|x5 [|x6 [|x7 row]]]]]]]];
    try reflexivity.
  simpl in Hlen. lia.
Qed.

Lemma loop_too_many_scores {V} (f : spec_float -> V) (row : list spec_float) :
  (7 < length row)%nat ->
  for_each
    (fun (d : dict V) (ip : Z * spec_float) =>
       let (i, prob) := ip in
       let* name := py_getitem ModelLoader.class_names_0 i in
       ok (dict_set d name (f prob)))
    (enumerate row) []
  = inl (Exn "IndexError" "list index out of range").
Proof.
  intros Hlen.
  destruct row as [|x0 [|x1 [|x2 [|x3 [|x4 [|x5 [|x6 [|x7 row]]]]]]]];
    try (simpl in Hlen; lia).
  reflexivity.
Qed.

(** X8: how [predict] depends on the number of scores the model returns for
    the image, the class names being the seven of [__init__]: with 1 to 7
    scores it returns a class index, a confidence and the map that pairs the
    first class names, in order, with the scores times 100; with no score or
    with more than 7 it returns (None, None, None). *)
Theorem predict_score_count (L : Libs) (self : ModelLoader.SkinCancerModel)
    (img : ndarray3 spec_float) (w : world) (row : list spec_float) :
  ModelLoader.class_names self = ModelLoader.class_names_0 ->
  keras_predict L [img] = inr [row] ->
  ((1 <= length row <= 7)%nat ->
   exists c conf,
     fst (ModelLoader.predict L self img w)
     = inr (Some c, Some conf, Some (percent_map row))) /\
  (row = [] \/ (7 < length row)%nat ->
   fst (ModelLoader.predict L self img w) = inr (None, None, None)).
Proof.
  intros Hnames Hrow. split.
  - intros Hlen.
    destruct (np_argmax_nonempty row) as (idx & p & Hidx & Hp);
      [intros ->; simpl in Hlen; lia|].
    pose proof (loop_percent_map
                  (fun x => Float.mul64 (Float.to_f64 x) (Float.f64_of_Z 100)) row
                  (proj2 Hlen)) as Hloop.
    rewrite <- Hnames in Hloop.
    pose proof (predict_body_run L self img w row idx p _ Hrow Hidx
                  (py_getitem_nat _ _ _ Hp) Hloop) as Hbody.
    eexists. eexists. unfold ModelLoader.predict, try_except, pbind.
    rewrite Hbody. rewrite Hnames. reflexivity.
  - intros Hbad.
    destruct (predict_cases L self img w)
      as [(c & conf & probs & w' & Hb & _)|(e & w' & _ & ->)]; [|reflexivity].
    exfalso. revert Hb.
    unfold ModelLoader.predict_body, pbind, record_call, lift, ret. cbv beta iota.
    rewrite Hrow. cbv beta iota.
    change (py_getitem [row] 0) with (@inr exn _ row). cbv beta iota.
    destruct Hbad as [->|Hlen]; [discriminate|].
    destruct (ModelLoader.np_argmax row) as [e|idx]; [discriminate|].
    cbv beta iota zeta.
    destruct (py_getitem row (Z.of_nat idx)) as [e|p]; [discriminate|].
    cbv beta iota. rewrite Hnames.
    rewrite (loop_too_many_scores
               (fun x => Float.mul64 (Float.to_f64 x) (Float.f64_of_Z 100)) row Hlen).
    discriminate.
Qed.

Lemma predict_score_count_witness :
  (exists c conf,
     fst (ModelLoader.predict (Demo.libs (ok [[Demo.half; Demo.one]]) (ok []))
            {| ModelLoader.class_names := ModelLoader.class_names_0 |} [] Demo.world_0)
     = inr (Some c, Some conf, Some (percent_map [Demo.half; Demo.one]))) /\
  fst (ModelLoader.predict
         (Demo.libs (ok [[Demo.one; Demo.one; Demo.one; Demo.one;
                          Demo.one; Demo.one; Demo.one; Demo.one]]) (ok []))
         {| ModelLoader.class_names := ModelLoader.class_names_0 |} [] Demo.world_0)
  = inr (None, None, None).
Proof.
  split.
  - apply (predict_score_count (Demo.libs (ok [[Demo.half; Demo.one]]) (ok []))
             {| ModelLoader.class_names := ModelLoader.class_names_0 |}
             [] Demo.world_0 [Demo.half; Demo.one] eq_refl eq_refl).
    simpl. lia.
  - apply (predict_score_count
             (Demo.libs (ok [[Demo.one; Demo.one; Demo.one; Demo.one;
                              Demo.one; Demo.one; Demo.one; Demo.one]]) (ok []))
             {| ModelLoader.class_names := ModelLoader.class_names_0 |}
             [] Demo.world_0 _ eq_refl eq_refl).
    right. simpl. lia.
Defined.

(** X9: whatever the model returns and whatever the class names are, a class
    index that [predict] returns is a valid position of [class_names]. *)
Theorem predicted_class_in_range (L : Libs) (self : ModelLoader.SkinCancerModel)
    (img : ndarray3 spec_float) (w : world) (c : Z)
    (conf : option spec_float) (probs : option (dict spec_float)) :
  fst (ModelLoader.predict L self img w) = inr (Some c, conf, probs) ->
  0 <= c < Z.of_nat (length (ModelLoader.class_names self)).
Proof.
  intros Hrun.
  destruct (predict_cases L self img w)
    as [(c' & conf' & probs' & w' & Hb & Hp)|(e & w' & _ & Hp)];
    rewrite Hp in Hrun; simpl in Hrun; [|discriminate].
  injection Hrun as <- _ _.
  destruct (predict_body_inv L self img w w' c' conf' probs' Hb)
    as (preds & row & idx & p & name & _ & _ & _ & -> & _ & _ & Hname).
  apply lookup_lt_Some in Hname. lia.
Qed.

Lemma predicted_class_in_range_witness :
  0 <= 1 < Z.of_nat (length ModelLoader.class_names_0).
Proof.
  apply (predicted_class_in_range (Demo.libs (ok [Demo.tied_scores]) (ok []))
           {| ModelLoader.class_names := ModelLoader.class_names_0 |} [] Demo.world_0 1
           (Some (S754_finite false 7036874417766400 (-47)))
           (Some (percent_map Demo.tied_scores))).
  vm_compute. reflexivity.
Defined.

(** X10: the confidence is exactly 100 times the score of the predicted
    class (the conversion to a Python float and the product round nothing
    away when the scores are finite float32 numbers); so a score in [0, 1]
    gives a confidence in [0, 100]. *)
Theorem confidence_is_exact_percent (L : Libs) (self : ModelLoader.SkinCancerModel)
    (img : ndarray3 spec_float) (w : world) (row : list spec_float) (c : Z)
    (conf : spec_float) (probs : option (dict spec_float)) :
  keras_predict L [img] = inr [row] ->
  Forall (fun x => finite32 x = true) row ->
  fst (ModelLoader.predict L self img w) = inr (Some c, Some conf, probs) ->
  exists p,
    row !! Z.to_nat c = Some p /\
    (to_Q conf == 100 * to_Q p)%Q /\
    ((0 <= to_Q p <= 1)%Q -> (0 <= to_Q conf <= 100)%Q).
Proof.
  intros Hrow Hfin Hrun.
  destruct (predict_cases L self img w)
    as [(c' & conf' & probs' & w' & Hb & Hp)|(e & w' & _ & Hp)];
    rewrite Hp in Hrun; simpl in Hrun; [|discriminate].
  injection Hrun as <- <- _.
  destruct (predict_body_inv L self img w w' c' conf' probs' Hb)
    as (preds & row' & idx & p & name & Hk & Hrow' & _ & -> & Hp' & -> & _).
  rewrite Hrow in Hk. injection Hk as <-.
  change (py_getitem [row] 0) with (@inr exn _ row) in Hrow'. injection Hrow' as <-.
  exists p. rewrite Nat2Z.id. split; [exact Hp'|].
  assert (Hpf : finite32 p = true).
  { rewrite Forall_forall in Hfin. apply Hfin.
    eapply list_elem_of_lookup_2. exact Hp'. }
  destruct (mul100_to_Q p Hpf) as [_ Hval].
  split; [exact Hval|]. intros [Hlo Hhi]. rewrite Hval. split; lra.
Qed.

Lemma confidence_is_exact_percent_witness :
  exists p,
    Demo.tied_scores !! Z.to_nat 1 = Some p /\
    (to_Q (S754_finite false 7036874417766400 (-47)) == 100 * to_Q p)%Q.
Proof.
  destruct (confidence_is_exact_percent (Demo.libs (ok [Demo.tied_scores]) (ok []))
              {| ModelLoader.class_names := ModelLoader.class_names_0 |} [] Demo.world_0
              Demo.tied_scores 1 (S754_finite false 7036874417766400 (-47))
              (Some (percent_map Demo.tied_scores)))
    as (p & Hp & Hval & _).
  - reflexivity.
  - repeat constructor.
  - vm_compute. reflexivity.
  - exists p. split; [exact Hp|exact Hval].
Defined.

(** ** The probability tables of the answer *)

Lemma key_le_of_not_lt (a b : Z * (Z * Z)) : ~ key_lt a b -> key_le b a.
Proof. unfold key_le, key_lt. lia. Qed.

Lemma insert_desc_perm (x : string * spec_float) (l : dict spec_float) :
  Permutation (App.insert_desc x l) (x :: l).
Proof.
  induction l as [|y l IH]; simpl; [reflexivity|].
  destruct (Float.ltb (snd y) (snd x)); [reflexivity|].
  rewrite IH. apply perm_swap.
Qed.

Lemma insert_desc_sorted (x : string * spec_float) (l : dict spec_float) :
  Float.is_nan (snd x) = false ->
  Forall (fun kv => Float.is_nan (snd kv) = false) l ->
  StronglySorted value_ge l ->
  StronglySorted value_ge (App.insert_desc x l).
Proof.
  intros Hx Hl Hs. induction l as [|y l IH]; simpl.
  - repeat constructor.
  - apply Forall_cons in Hl as [Hy Hl].
    apply StronglySorted_inv in Hs as [Hs Hall].
    destruct (Float.ltb (snd y) (snd x)) eqn:Hcmp.
    + apply SSorted_cons; [apply SSorted_cons; assumption|].
      apply ltb_key in Hcmp; [|assumption|assumption].
      apply List.Forall_cons.
      * unfold value_ge. apply leb_key; [assumption|assumption|].
        apply key_lt_le. exact Hcmp.
      * rewrite List.Forall_forall in Hall, Hl |- *. intros z Hz.
        unfold value_ge. apply leb_key; [apply Hl; exact Hz|assumption|].
        apply key_lt_le. eapply key_le_lt_trans; [|exact Hcmp].
        apply leb_key; [apply Hl; exact Hz|assumption|]. apply Hall. exact Hz.
    + apply SSorted_cons; [apply IH; assumption|].
      apply (Permutation_Forall (Permutation_sym (insert_desc_perm x l))).
      apply List.Forall_cons; [|exact Hall].
      unfold value_ge. apply leb_key; [assumption|assumption|].
      apply key_le_of_not_lt. intros Hc.
      apply ltb_key in Hc; [|assumption|assumption]. congruence.
Qed.

Lemma sorted_desc_acc (d acc : dict spec_float) :
  Forall (fun kv => Float.is_nan (snd kv) = false) d ->
  Forall (fun kv => Float.is_nan (snd kv) = false) acc ->
  StronglySorted value_ge acc ->
  Permutation (fold_left (fun a x => App.insert_desc x a) d acc) (acc ++ d)%list /\
  StronglySorted value_ge (fold_left (fun a x => App.insert_desc x a) d acc).
Proof.
  revert acc. induction d as [|x d IH]; intros acc Hd Hacc Hs; simpl.
  - rewrite app_nil_r. split; [reflexivity|exact Hs].
  - apply Forall_cons in Hd as [Hx Hd].
    destruct (IH (App.insert_desc x acc) Hd) as [Hperm Hsorted].
    + apply (Permutation_Forall (Permutation_sym (insert_desc_perm x acc))).
      apply List.Forall_cons; assumption.
    + apply insert_desc_sorted; assumption.
    + split; [|exact Hsorted].
      rewrite Hperm, insert_desc_perm. apply Permutation_middle.
Qed.

(** X11: the table [sorted_probabilities] holds exactly the entries of the
    probability map, rearranged so that the percentages descend (none of
    them being a NaN). *)
Theorem sorted_desc_sorts (d : dict spec_float) :
  Forall (fun kv => Float.is_nan (snd kv) = false) d ->
  Permutation (App.sorted_desc d) d /\
  StronglySorted value_ge (App.sorted_desc d).
Proof.
  intros Hd. unfold App.sorted_desc.
  destruct (sorted_desc_acc d [] Hd) as [Hperm Hsorted];
    [constructor|constructor|].
  split; [exact Hperm|exact Hsorted].
Qed.

Lemma sorted_desc_sorts_witness :
  Permutation (App.sorted_desc (percent_map Demo.tied_scores))
    (percent_map Demo.tied_scores) /\
  StronglySorted value_ge (App.sorted_desc (percent_map Demo.tied_scores)).
Proof.
  apply (sorted_desc_sorts (percent_map Demo.tied_scores)).
  vm_compute. repeat constructor.
Defined.

Lemma dict_set_fresh {V} (d : dict V) (k : string) (v : V) :
  ~ In k (map fst d) -> dict_set d k v = (d ++ [(k, v)])%list.
Proof.
  induction d as [|[k' v'] d IH]; simpl; intros Hk; [reflexivity|].
  destruct (String.eqb_spec k' k) as [->|_]; [exfalso; auto|].
  rewrite IH by auto. reflexivity.
Qed.

Lemma dict_set_keys {V} (d : dict V) (k : string) (v : V) :
  NoDup (map fst d) -> NoDup (map fst (dict_set d k v)).
Proof.
  induction d as [|[k' v'] d IH]; simpl; intros Hd.
  - repeat constructor. apply not_elem_of_nil.
  - apply NoDup_cons in Hd as [Hk' Hd].
    destruct (String.eqb_spec k' k) as [->|Hne]; simpl.
    + apply NoDup_cons. split; assumption.
    + apply NoDup_cons. split; [|apply IH; exact Hd].
      intros Hin. apply Hk'. clear IH Hd Hk'.
      induction d as [|[k2 v2] d IHd]; simpl in *.
      * apply list_elem_of_singleton in Hin. congruence.
      * destruct (String.eqb_spec k2 k) as [->|_]; simpl in *; [exact Hin|].
        apply elem_of_cons in Hin as [->|Hin]; [left|right; apply IHd; exact Hin].
Qed.

Lemma fold_dict_set_map {V W} (g : V -> W) (d : dict V) (acc : dict W) :
  NoDup (map fst acc ++ map fst d)%list ->
  fold_left (fun (a : dict W) (kv : string * V) => dict_set a (fst kv) (g (snd kv))) d acc
  = (acc ++ map (fun kv => (fst kv, g (snd kv))) d)%list.
Proof.
  revert acc. induction d as [|[k v] d IH]; intros acc Hnd; simpl.
  - rewrite app_nil_r. reflexivity.
  - rewrite dict_set_fresh.
    + rewrite IH.
      * rewrite <- app_assoc. reflexivity.
      * rewrite map_app. simpl. rewrite <- app_assoc. exact Hnd.
    + intros Hin. apply NoDup_app in Hnd as (_ & Hdisj & _).
      apply (Hdisj k); [apply list_elem_of_In; exact Hin|]. simpl. left.
Qed.

(** The keys of the map that [predict] builds are distinct. *)
Lemma predict_body_keys (L : Libs) (self : ModelLoader.SkinCancerModel)
    (img : ndarray3 spec_float) (w w' : world) (c : Z) (conf : spec_float)
    (probs : dict spec_float) :
  ModelLoader.predict_body L self img w = (inr (c, conf, probs), w') ->
  NoDup (map fst probs).
Proof.
  unfold ModelLoader.predict_body, pbind, record_call, lift, ret. cbv beta iota.
  destruct (keras_predict L [img]) as [e|preds]; [discriminate|]. cbv beta iota.
  destruct (py_getitem preds 0) as [e|row]; [discriminate|]. cbv beta iota.
  destruct (ModelLoader.np_argmax row) as [e|idx]; [discriminate|].
  cbv beta iota zeta.
  destruct (py_getitem row (Z.of_nat idx)) as [e|p]; [discriminate|]. cbv beta iota.
  destruct (for_each _ (enumerate row) []) as [e|d] eqn:Hloop; [discriminate|].
  intros [= _ _ <- _].
  assert (Hinv : forall (xs : list (Z * spec_float)) (d0 d1 : dict spec_float),
    NoDup (map fst d0) ->
    for_each
      (fun (d : dict spec_float) (ip : Z * spec_float) =>
         let (i, prob) := ip in
         let* name := py_getitem (ModelLoader.class_names self) i in
         ok (dict_set d name (Float.mul64 (Float.to_f64 prob) (Float.f64_of_Z 100))))
      xs d0 = inr d1 ->
    NoDup (map fst d1)).
  { induction xs as [|[i x] xs IH]; intros d0 d1 Hd0; simpl.
    - intros [= <-]. exact Hd0.
    - unfold rbind at 1.
      destruct (py_getitem (ModelLoader.class_names self) i) as [e|name];
        simpl; [discriminate|].
      apply IH. apply dict_set_keys. exact Hd0. }
  apply (Hinv (enumerate row) [] d); [constructor|exact Hloop].
Qed.

(** X12: the probability map that [predict] returns is a dictionary: whatever
    the display names (two classes may share one) and the scores, no two of
    its entries have the same class name.  Hence the comprehension by which
    the view formats the map, [{k: f"{v:.2f}%" for k, v in probabilities.items()}],
    yields one entry per entry of the map, in the same order, each with its
    percentage written in two decimals and a percent sign. *)
Theorem probability_map_keys_distinct (L : Libs) (self : ModelLoader.SkinCancerModel)
    (img : ndarray3 spec_float) (w : world) (pc : option Z) (conf : option spec_float)
    (probs : dict spec_float) :
  fst (ModelLoader.predict L self img w) = inr (pc, conf, Some probs) ->
  NoDup (map fst probs) /\
  fold_left (fun (d : dict string) (kv : string * spec_float) =>
               dict_set d (fst kv) (format_2f L (snd kv) ++ "%"))
            probs []
  = map (fun kv => (fst kv, format_2f L (snd kv) ++ "%")) probs.
Proof.
  intros Hrun.
  assert (Hkeys : NoDup (map fst probs)).
  { destruct (predict_cases L self img w)
      as [(c & conf' & probs' & w' & Hb & Hpred)|(e & w' & _ & Hpred)];
      rewrite Hpred in Hrun; simpl in Hrun; [|discriminate].
    injection Hrun as _ _ <-.
    apply (predict_body_keys L self img w w' c conf' probs' Hb). }
  split; [exact Hkeys|].
  apply (fold_dict_set_map (fun x => format_2f L x ++ "%") probs []).
  simpl. exact Hkeys.
Qed.

Lemma probability_map_keys_distinct_witness :
  exists probs,
    fst (ModelLoader.predict (Demo.libs (ok [Demo.tied_scores]) (ok []))
           {| ModelLoader.class_names := ModelLoader.class_names_0 |} [] Demo.world_0)
    = inr (Some 1, Some (S754_finite false 7036874417766400 (-47)), Some probs) /\
    NoDup (map fst probs).
Proof.
  eexists. split.
  - rewrite demo_predict_tied. reflexivity.
  - eapply (probability_map_keys_distinct (Demo.libs (ok [Demo.tied_scores]) (ok []))
              {| ModelLoader.class_names := ModelLoader.class_names_0 |} [] Demo.world_0).
    rewrite demo_predict_tied. reflexivity.
Defined.

(** ** The record lookup *)

(** X13: the record lookup is idempotent on a registry the service can
    hold: asking again for the same index returns the same answer and leaves
    the state as the first lookup left it. *)
Theorem class_info_lookup_idempotent (self : ModelLoader.SkinCancerModel) (i : Z)
    (w : world) :
  ModelLoader.class_names self = ModelLoader.class_names_0 ->
  registry_ok (class_info w) ->
  ModelLoader.get_class_info self i (snd (ModelLoader.get_class_info self i w))
  = ModelLoader.get_class_info self i w.
Proof.
  intros Hnames Hok.
  pose proof (get_class_info_run self i w Hnames Hok) as H1.
  pose proof (get_class_info_run self i _ Hnames
                (get_class_info_preserves self i Hnames w Hok)) as H2.
  destruct (ModelLoader.class_info_0 !! i) as [r0|].
  - destruct H1 as (n & Hn & H1). destruct H2 as (n' & Hn' & H2).
    rewrite Hn in Hn'. injection Hn' as <-.
    rewrite H2, H1. simpl. rewrite insert_insert_eq. reflexivity.
  - rewrite H2, H1. reflexivity.
Qed.

Lemma class_info_lookup_idempotent_witness :
  ModelLoader.get_class_info {| ModelLoader.class_names := ModelLoader.class_names_0 |} 3
    (snd (ModelLoader.get_class_info
            {| ModelLoader.class_names := ModelLoader.class_names_0 |} 3 Demo.world_0))
  = ModelLoader.get_class_info
      {| ModelLoader.class_names := ModelLoader.class_names_0 |} 3 Demo.world_0.
Proof.
  apply (class_info_lookup_idempotent
           {| ModelLoader.class_names := ModelLoader.class_names_0 |} 3 Demo.world_0).
  - reflexivity.
  - exact registry_ok_init.
Defined.

Lemma class_info_0_fields (i : Z) (r0 : gmap string string) :
  ModelLoader.class_info_0 !! i = Some r0 ->
  forall k, is_Some (r0 !! k) <-> In k authored_fields.
Proof.
  unfold ModelLoader.class_info_0. intros H k.
  apply elem_of_list_to_map_2 in H.
  assert (Hrec : exists a b c d e f, r0 = ModelLoader.info_record a b c d e f).
  { repeat (apply elem_of_cons in H as [H|H];
            [injection H as _ ->; repeat eexists|]).
    apply elem_of_nil in H. contradiction. }
  destruct Hrec as (a & b & c & d & e & f & ->).
  unfold ModelLoader.info_record. rewrite <- not_eq_None_Some.
  rewrite <- not_elem_of_list_to_map, <- list_elem_of_In.
  change (~ (k ∉ authored_fields) <-> k ∈ authored_fields).
  split; [apply dec_stable|intros Hin Hnot; exact (Hnot Hin)].
Qed.

(** X14: the method [get_class_info] on a registry the service can hold: an
    index in 0..6 yields the record of the class, whose keys are the six
    authored fields and ["full_name"], the latter holding the display name of
    the class; any other index, negative ones included, yields [None] and
    changes nothing. *)
Theorem class_info_lookup_result (self : ModelLoader.SkinCancerModel) (i : Z)
    (w : world) :
  ModelLoader.class_names self = ModelLoader.class_names_0 ->
  registry_ok (class_info w) ->
  (0 <= i < 7 ->
   exists rec name,
     fst (ModelLoader.get_class_info self i w) = inr (Some rec) /\
     ModelLoader.class_names_0 !! Z.to_nat i = Some name /\
     rec !! "full_name" = Some name /\
     forall k, is_Some (rec !! k) <-> In k authored_fields \/ k = "full_name") /\
  (~ (0 <= i < 7) -> ModelLoader.get_class_info self i w = (inr None, w)).
Proof.
  intros Hnames Hok.
  pose proof (get_class_info_run self i w Hnames Hok) as Hrun.
  split.
  - intros Hi. destruct (class_info_0_in_range i Hi) as [r0 Hr0].
    rewrite Hr0 in Hrun. destruct Hrun as (n & Hn & ->).
    exists (<["full_name" := n]> r0), n. simpl.
    split; [reflexivity|]. split; [rewrite <- nth_error_lookup; exact Hn|].
    split; [apply lookup_insert_eq|].
    intros k. destruct (decide (k = "full_name")) as [->|Hne].
    + rewrite lookup_insert_eq. split; [auto|eauto].
    + rewrite lookup_insert_ne by congruence.
      rewrite (class_info_0_fields i r0 Hr0 k). split; [auto|].
      intros [H|H]; [exact H|contradiction].
  - intros Hi. apply class_info_0_None in Hi. rewrite Hi in Hrun. exact Hrun.
Qed.

Lemma class_info_lookup_result_witness :
  (exists rec name,
     fst (ModelLoader.get_class_info
            {| ModelLoader.class_names := ModelLoader.class_names_0 |} 2 Demo.world_0)
     = inr (Some rec) /\
     ModelLoader.class_names_0 !! Z.to_nat 2 = Some name /\
     rec !! "full_name" = Some name) /\
  ModelLoader.get_class_info
    {| ModelLoader.class_names := ModelLoader.class_names_0 |} (-1) Demo.world_0
  = (inr None, Demo.world_0).
Proof.
  split.
  - destruct (class_info_lookup_result
                {| ModelLoader.class_names := ModelLoader.class_names_0 |} 2 Demo.world_0
                eq_refl registry_ok_init) as [Hin _].
    destruct Hin as (rec & name & H1 & H2 & H3 & _); [lia|].
    exists rec, name. split; [exact H1|]. split; [exact H2|exact H3].
  - apply (class_info_lookup_result
             {| ModelLoader.class_names := ModelLoader.class_names_0 |} (-1) Demo.world_0
             eq_refl registry_ok_init).
    lia.
Defined.

(** ** Start-up and readiness *)

Lemma startup_by_load (L : Libs) (w0 : world) :
  match keras_load_model L "models/resnet50_model.h5" with
  | inr _ =>
      App.startup L w0
      = (inr {| App.model := Some {| ModelLoader.class_names := ModelLoader.class_names_0 |};
                App.preprocessor := Some Utils.init |},
         World ModelLoader.class_info_0 (calls w0))
  | inl _ =>
      App.startup L w0 = (inr {| App.model := None; App.preprocessor := None |}, w0)
  end.
Proof.
  unfold App.startup, ModelLoader.init, try_except, pbind, lift, write_class_info, ret.
  cbv beta iota. destruct (keras_load_model L _) as [e|[]]; reflexivity.
Qed.



(** X16: when the model file cannot be loaded, the service stays up with
    both globals [None]: every prediction request, metadata query and
    readiness check is answered with status 500, and none of them changes
    the state. *)
Theorem unloaded_service_answers_500 (L : Libs) (w0 w1 : world) (g : App.globals)
    (e : exn) (op : App.operation) (w : world) :
  keras_load_model L "models/resnet50_model.h5" = inl e ->
  App.startup L w0 = (inr g, w1) ->
  w1 = w0 /\
  exists p, App.serve L g op w = (inr (p, 500), w).
Proof.
  intros Hload Hs. pose proof (startup_by_load L w0) as H.
  rewrite Hload in H. rewrite H in Hs. injection Hs as <- <-.
  split; [reflexivity|].
  destruct op as [req|class_id|]; simpl; eexists; reflexivity.
Qed.

Lemma unloaded_service_answers_500_witness :
  exists p,
    App.serve
      {| cv2_imdecode := Demo.imdecode;
         cv2_BGR2GRAY := Demo.BGR2GRAY;
         cv2_equalizeHist := fun g => g;
         cv2_resize := Demo.resize;
         pil_png := fun _ => ok [];
         keras_load_model := fun _ => raise (Exn "OSError" "No file or directory found");
         keras_predict := fun _ => ok [Demo.tied_scores];
         gradcam_call := fun _ _ => ok [];
         tfkv_normalize := Demo.normalize;
         plt_figure_png := fun _ _ => ok [];
         b64encode := fun _ => "";
         format_2f := fun _ => "";
         now_str := "2026-01-01 00:00:00" |}
      {| App.model := None; App.preprocessor := None |}
      (App.OpPredict (Demo.upload [Byte.x2a])) Demo.world_0
    = (inr (p, 500), Demo.world_0).
Proof.
  eapply (unloaded_service_answers_500 _ Demo.world_0 Demo.world_0).
  - reflexivity.
  - reflexivity.
Defined.

(** ** [preprocess] and the display *)

(** X17: under OpenCV's shape contract, [preprocess] returns [None] exactly
    when the bytes do not decode: once an image is decoded no later step can
    fail. *)
Theorem preprocess_fails_only_on_undecodable (L : Libs) (buf : list Byte.byte) :
  cv2_contract L ->
  (Utils.preprocess L Utils.init buf = None <-> decodes L buf = false).
Proof.
  intros HL. split.
  - intros Hnone. unfold decodes.
    destruct (cv2_imdecode L buf) as [e| |img] eqn:Hdec; try reflexivity.
    rewrite (preprocess_decoded L buf img HL Hdec) in Hnone. discriminate.
  - intros Hdec. unfold Utils.preprocess. apply catch_none_None.
    apply (preprocess_undecodable L Utils.init buf Hdec).
Qed.

Lemma preprocess_fails_only_on_undecodable_witness :
  Utils.preprocess (Demo.libs (ok [Demo.tied_scores]) (ok [])) Utils.init [] = None <->
  decodes (Demo.libs (ok [Demo.tied_scores]) (ok [])) [] = false.
Proof.
  apply (preprocess_fails_only_on_undecodable (Demo.libs (ok [Demo.tied_scores]) (ok [])) []).
  apply demo_cv2_contract.
Defined.

Lemma standardized_intensity_range (v : Byte.byte) :
  in_standard_range (Utils.standardize_value (Float.literal 485 1000) (Float.literal 229 1000)
                       (Utils.scale_value v)) /\
  in_standard_range (Utils.standardize_value (Float.literal 456 1000) (Float.literal 224 1000)
                       (Utils.scale_value v)) /\
  in_standard_range (Utils.standardize_value (Float.literal 406 1000) (Float.literal 225 1000)
                       (Utils.scale_value v)).
Proof.
  unfold in_standard_range.
  destruct v; vm_compute; repeat split; discriminate.
Qed.

(** X18: every entry of the tensor [preprocess] returns lies between -2.12
    and 2.65, whatever the image. *)
Theorem preprocess_value_range (L : Libs) (buf : list Byte.byte)
    (img : ndarray3 Byte.byte) (t : ndarray3 spec_float) :
  cv2_contract L ->
  cv2_imdecode L buf = DecodeImage img ->
  Utils.preprocess L Utils.init buf = Some t ->
  Forall (Forall (Forall in_standard_range)) t.
Proof.
  intros HL Hdec Hpre.
  rewrite (preprocess_decoded L buf img HL Hdec) in Hpre. injection Hpre as <-.
  pose proof (resized_shape L buf img HL Hdec) as [_ Hrows].
  cbn [Utils.target_size Utils.init] in Hrows.
  unfold Utils.scale, map3. rewrite map_map.
  apply Forall_map. eapply Forall_impl; [exact Hrows|].
  intros row [_ Hpx]. simpl. rewrite map_map.
  apply Forall_map. eapply Forall_impl; [exact Hpx|].
  intros px Hlen. simpl.
  destruct (length_3_inv px Hlen) as (a & b & c & ->).
  change (map Utils.scale_value [a; b; c])
    with [Utils.scale_value a; Utils.scale_value b; Utils.scale_value c].
  rewrite standardize_pixel_init.
  destruct (standardized_intensity_range a) as (Ha & _ & _).
  destruct (standardized_intensity_range b) as (_ & Hb & _).
  destruct (standardized_intensity_range c) as (_ & _ & Hc).
  apply Forall_cons_2; [exact Ha|]. apply Forall_cons_2; [exact Hb|].
  apply Forall_cons_2; [exact Hc|]. apply Forall_nil_2.
Qed.

Lemma preprocess_value_range_witness :
  exists t,
    Utils.preprocess (Demo.libs (ok [Demo.tied_scores]) (ok [])) Utils.init [Byte.x2a]
    = Some t /\
    Forall (Forall (Forall in_standard_range)) t.
Proof.
  eexists. split.
  - apply (preprocess_decoded _ [Byte.x2a] [[[Byte.x2a; Byte.x2a; Byte.x2a]]]).
    + apply demo_cv2_contract.
    + reflexivity.
  - apply (preprocess_value_range (Demo.libs (ok [Demo.tied_scores]) (ok []))
             [Byte.x2a] [[[Byte.x2a; Byte.x2a; Byte.x2a]]]).
    + apply demo_cv2_contract.
    + reflexivity.
    + apply (preprocess_decoded _ [Byte.x2a] [[[Byte.x2a; Byte.x2a; Byte.x2a]]]).
      * apply demo_cv2_contract.
      * reflexivity.
Defined.

(** X19: a preprocessor built for the target size [(tw, th)] returns, for
    bytes that decode, a tensor of [th] rows, [tw] columns and 3 channels:
    the first component of [target_size] is the width. *)
Theorem preprocess_target_size (L : Libs) (tw th : nat) (buf : list Byte.byte)
    (img : ndarray3 Byte.byte) :
  cv2_contract L ->
  (0 < tw)%nat -> (0 < th)%nat ->
  cv2_imdecode L buf = DecodeImage img ->
  exists t,
    Utils.preprocess L (new_preprocessor (tw, th)) buf = Some t /\
    has_shape t th tw 3.
Proof.
  intros HL _ _ Hdec.
  destruct (imdecode_shape L HL buf img Hdec) as (h & w & Hh & Hw & Himg).
  assert (Hres : has_shape
                   (cv2_resize L
                      (Utils.GRAY2RGB (cv2_equalizeHist L (cv2_BGR2GRAY L img))) (tw, th))
                   th tw 3).
  { apply (resize_shape L HL _ h w 3 tw th Hh Hw).
    apply GRAY2RGB_shape. apply (equalizeHist_shape L HL).
    apply (BGR2GRAY_shape L HL). exact Himg. }
  destruct (standardized_scaled_pixels _ th tw Hres) as (Ht & _ & _).
  eexists. split; [|exact Ht].
  unfold Utils.preprocess. apply catch_none_Some.
  unfold Utils.preprocess_body. rewrite Hdec. cbn [rbind ok].
  change (Utils.standardize_channel (new_preprocessor (tw, th)))
    with (Utils.standardize_channel Utils.init).
  apply (standardize_loop _ th tw).
  apply has_shape_map3. exact Hres.
Qed.

Lemma preprocess_target_size_witness :
  exists t,
    Utils.preprocess (Demo.libs (ok [Demo.tied_scores]) (ok []))
      (new_preprocessor (4%nat, 2%nat)) [Byte.x2a] = Some t /\
    has_shape t 2 4 3.
Proof.
  apply (preprocess_target_size (Demo.libs (ok [Demo.tied_scores]) (ok []))
           4 2 [Byte.x2a] [[[Byte.x2a; Byte.x2a; Byte.x2a]]]).
  - apply demo_cv2_contract.
  - lia.
  - lia.
  - reflexivity.
Defined.

(** X20: the denormalization of [prepare_for_display] undoes the
    standardization of [preprocess] up to one intensity level: for every
    8-bit intensity and each of the three channels, the 8-bit value computed
    for display is the original intensity or the one just below it. *)
Theorem display_value_round_trip (v : Byte.byte) :
  (uint8_to_Z v - 1
   <= uint8_to_Z (displayed_value (Float.literal 485 1000) (Float.literal 229 1000)
                    (Utils.standardize_value (Float.literal 485 1000)
                       (Float.literal 229 1000) (Utils.scale_value v)))
   <= uint8_to_Z v) /\
  (uint8_to_Z v - 1
   <= uint8_to_Z (displayed_value (Float.literal 456 1000) (Float.literal 224 1000)
                    (Utils.standardize_value (Float.literal 456 1000)
                       (Float.literal 224 1000) (Utils.scale_value v)))
   <= uint8_to_Z v) /\
  (uint8_to_Z v - 1
   <= uint8_to_Z (displayed_value (Float.literal 406 1000) (Float.literal 225 1000)
                    (Utils.standardize_value (Float.literal 406 1000)
                       (Float.literal 225 1000) (Utils.scale_value v)))
   <= uint8_to_Z v).
Proof. destruct v; vm_compute; repeat split; discriminate. Qed.

(** ** [generate_gradcam] at the edges *)

(** X21: [generate_gradcam] never raises and never touches the registry; it
    logs its one Grad-CAM call, and it returns [None] exactly when the
    Grad-CAM call raises, or returns an empty batch, or the normalization of
    the first map raises, or the rendering of the figure raises. *)
Theorem gradcam_none_iff (L : Libs) (self : ModelLoader.SkinCancerModel)
    (img : ndarray3 spec_float) (c : Z) (w : world) :
  exists heat,
    ModelLoader.generate_gradcam L self img c w
    = (inr heat, World (class_info w) (calls w ++ [CallGradcam [img] c])) /\
    (heat = None <->
     (exists e, gradcam_call L [img] c = inl e) \/
     gradcam_call L [img] c = inr [] \/
     (exists cam0 rest e,
        gradcam_call L [img] c = inr (cam0 :: rest) /\
        (tfkv_normalize L cam0 = inl e \/
         exists cam, tfkv_normalize L cam0 = inr cam /\
                     plt_figure_png L img cam = inl e))).
Proof.
  unfold ModelLoader.generate_gradcam, ModelLoader.generate_gradcam_body,
    try_except, pbind, record_call, lift, ret. cbv beta iota.
  destruct (gradcam_call L [img] c) as [e|[|cam0 rest]] eqn:Hcall; cbv beta iota.
  - exists None. split; [reflexivity|]. split; [eauto|reflexivity].
  - exists None. split; [reflexivity|]. split; [auto|reflexivity].
  - change (py_getitem (cam0 :: rest) 0) with (@inr exn _ cam0). cbv beta iota.
    destruct (tfkv_normalize L cam0) as [e|cam] eqn:Hnorm; cbv beta iota.
    + exists None. split; [reflexivity|]. split; [|reflexivity].
      intros _. right. right. exists cam0, rest, e. split; [reflexivity|left; exact Hnorm].
    + destruct (plt_figure_png L img cam) as [e|buf] eqn:Hfig; cbv beta iota.
      * exists None. split; [reflexivity|]. split; [|reflexivity].
        intros _. right. right. exists cam0, rest, e. split; [reflexivity|].
        right. exists cam. split; [exact Hnorm|exact Hfig].
      * eexists. split; [reflexivity|]. split; [discriminate|].
        intros [[e He]|[He|(cam0' & rest' & e & He & Hcase)]]; try discriminate.
        injection He as <- <-.
        destruct Hcase as [Hn|(cam' & Hn & Hf)]; [congruence|].
        rewrite Hnorm in Hn. injection Hn as <-. congruence.
Qed.
